(** * HouseWiz device manager: a shallow embedding of [housewiz_device.c]

    The C module keeps its registry in file-scope variables ([Devices],
    [DevicesCount], [DevicesSpace], [DeviceListChanged], [Networks] and the
    two static timestamps of [housewiz_device_periodic]).  Here they are the
    fields of one [world] record that every operation takes and returns.

    - C [int] and [time_t] values are [Z].  The only arithmetic on them is
      [now + 5], [now + pulse], [last_sense + 35], [LastRetry + 5],
      [LastSense + 60], [now - 100], [DevicesCount + 32] and
      [WIZ_ID_OFFSET + device]; [time_t] is a signed 64-bit count of
      seconds, so none of them leaves its range for any clock value the
      program can see, and signed overflow has no defined result in C.
    - [Devices] is the [calloc]'ed array, as a list with one element per
      allocated slot.  An access [Devices[i]] outside the allocation has no
      defined behaviour in C: the operations return [None] there.
    - [time(0)] is the argument [now] of the operations that read the clock.
    - What the module sends ([sendto]) and logs ([houselog_event],
      [houselog_trace]) is returned as a list of [output]s, oldest first.
    - The JSON parser and the configuration store are collaborators outside
      the module: what they answer is an input of the operation that asks
      ([inbound], [Config]).  So is the table of network interfaces that
      [housewiz_device_enumerate] reads from the host: the [scan] argument
      of [housewiz_device_periodic].
    - A datagram is read into the local [char data[256]]; a write outside
      it, like an access outside [Devices], makes the operation return
      [None].
    - The socket set-up and the text of the JSON export touch none of the
      fields the properties below are about and are left out. *)

From Stdlib Require Import ZArith String Ascii List Lia Bool DecimalString.
From stdpp Require Import base list strings.
Import ListNotations.

Open Scope Z_scope.

(** ** C strings and the library calls on them *)

(** [%d] of [snprintf]. *)
Definition decimal (z : Z) : string := NilZero.string_of_int (Z.to_int z).

(** What a [char] buffer of [limit] bytes holds after
    [strncpy (dest, src, limit-1); dest[limit-1] = 0], and after
    [snprintf] of a [%s] into it: the first [limit-1] characters. *)
Fixpoint strtake (n : nat) (s : string) : string :=
  match n, s with
  | S n', String c s' => String c (strtake n' s')
  | _, _ => EmptyString
  end.

Definition safecpy (src : string) (limit : nat) : string :=
  strtake (limit - 1) src.

Definition tolower (c : ascii) : Z :=
  let n := Z.of_N (N_of_ascii c) in
  if (65 <=? n) && (n <=? 90) then n + 32 else n.

(** [strcasecmp]: the difference of the first two lower-cased characters
    that differ, a missing character counting as the terminating 0. *)
Fixpoint strcasecmp (a b : string) : Z :=
  match a, b with
  | EmptyString, EmptyString => 0
  | EmptyString, String d _ => 0 - tolower d
  | String c _, EmptyString => tolower c
  | String c a', String d b' =>
      if tolower c =? tolower d then strcasecmp a' b'
      else tolower c - tolower d
  end.

Fixpoint strlower (s : string) : list Z :=
  match s with
  | EmptyString => []
  | String c s' => tolower c :: strlower s'
  end.

(** A C string holds no 0 character before its end. *)
Fixpoint cstring (s : string) : Prop :=
  match s with
  | EmptyString => True
  | String c s' => N_of_ascii c <> 0%N /\ cstring s'
  end.

(** ** Socket addresses *)

Record sockaddr_in := {
  sin_family : Z;
  sin_port : Z;      (* network byte order *)
  sin_addr : Z       (* s_addr *)
}.

Definition sockaddr_zero : sockaddr_in :=
  {| sin_family := 0; sin_port := 0; sin_addr := 0 |}.

(** [htons] on a little-endian host: the two bytes of a 16-bit value
    swapped.  [ntohs] is the same function. *)
Definition htons (x : Z) : Z :=
  Z.lor (Z.shiftl (Z.land x 255) 8) (Z.land (Z.shiftr x 8) 255).


Definition AF_INET : Z := 2.
Definition INADDR_BROADCAST : Z := 4294967295.

Definition WIZ_ID_OFFSET : Z := 12000.
Definition WizDevicePort : Z := 38899.
Definition WizStatusPort : Z := 38900.

(** [WizBroadcast] as [housewiz_device_socket] leaves it. *)
Definition WizBroadcast : sockaddr_in :=
  {| sin_family := AF_INET;
     sin_port := htons WizDevicePort;
     sin_addr := INADDR_BROADCAST |}.

(** ** Records *)

Record DeviceMap := {
  name : string;
  macaddress : string;
  description : string;
  ipaddress : sockaddr_in;
  detected : Z;
  status : Z;
  commanded : Z;
  pending : Z;
  deadline : Z;
  last_sense : Z
}.

(** One slot of [calloc (sizeof(struct DeviceMap), DevicesSpace)]. *)
Definition DeviceMap_zero : DeviceMap :=
  {| name := ""; macaddress := ""; description := "";
     ipaddress := sockaddr_zero; detected := 0; status := 0;
     commanded := 0; pending := 0; deadline := 0; last_sense := 0 |}.

Definition set_name (v : string) (d : DeviceMap) : DeviceMap :=
  {| name := v; macaddress := macaddress d; description := description d;
     ipaddress := ipaddress d; detected := detected d; status := status d;
     commanded := commanded d; pending := pending d; deadline := deadline d;
     last_sense := last_sense d |}.

Definition set_macaddress (v : string) (d : DeviceMap) : DeviceMap :=
  {| name := name d; macaddress := v; description := description d;
     ipaddress := ipaddress d; detected := detected d; status := status d;
     commanded := commanded d; pending := pending d; deadline := deadline d;
     last_sense := last_sense d |}.

Definition set_description (v : string) (d : DeviceMap) : DeviceMap :=
  {| name := name d; macaddress := macaddress d; description := v;
     ipaddress := ipaddress d; detected := detected d; status := status d;
     commanded := commanded d; pending := pending d; deadline := deadline d;
     last_sense := last_sense d |}.

Definition set_ipaddress (v : sockaddr_in) (d : DeviceMap) : DeviceMap :=
  {| name := name d; macaddress := macaddress d; description := description d;
     ipaddress := v; detected := detected d; status := status d;
     commanded := commanded d; pending := pending d; deadline := deadline d;
     last_sense := last_sense d |}.

Definition set_detected (v : Z) (d : DeviceMap) : DeviceMap :=
  {| name := name d; macaddress := macaddress d; description := description d;
     ipaddress := ipaddress d; detected := v; status := status d;
     commanded := commanded d; pending := pending d; deadline := deadline d;
     last_sense := last_sense d |}.

Definition set_status (v : Z) (d : DeviceMap) : DeviceMap :=
  {| name := name d; macaddress := macaddress d; description := description d;
     ipaddress := ipaddress d; detected := detected d; status := v;
     commanded := commanded d; pending := pending d; deadline := deadline d;
     last_sense := last_sense d |}.

Definition set_commanded (v : Z) (d : DeviceMap) : DeviceMap :=
  {| name := name d; macaddress := macaddress d; description := description d;
     ipaddress := ipaddress d; detected := detected d; status := status d;
     commanded := v; pending := pending d; deadline := deadline d;
     last_sense := last_sense d |}.

Definition set_pending (v : Z) (d : DeviceMap) : DeviceMap :=
  {| name := name d; macaddress := macaddress d; description := description d;
     ipaddress := ipaddress d; detected := detected d; status := status d;
     commanded := commanded d; pending := v; deadline := deadline d;
     last_sense := last_sense d |}.

Definition set_deadline (v : Z) (d : DeviceMap) : DeviceMap :=
  {| name := name d; macaddress := macaddress d; description := description d;
     ipaddress := ipaddress d; detected := detected d; status := status d;
     commanded := commanded d; pending := pending d; deadline := v;
     last_sense := last_sense d |}.

Definition set_last_sense (v : Z) (d : DeviceMap) : DeviceMap :=
  {| name := name d; macaddress := macaddress d; description := description d;
     ipaddress := ipaddress d; detected := detected d; status := status d;
     commanded := commanded d; pending := pending d; deadline := deadline d;
     last_sense := v |}.

Record NetworkMap := {
  net_name : string;
  net_ip : string;
  net_mac : string
}.

(** The file-scope variables of the module.  [Networks] holds its first
    [NetworksCount] entries; [LastRetry] and [LastSense] are the statics of
    [housewiz_device_periodic]. *)
Record world := {
  DeviceListChanged : Z;
  Devices : list DeviceMap;
  DevicesCount : Z;
  DevicesSpace : Z;
  Networks : list NetworkMap;
  LastRetry : Z;
  LastSense : Z
}.

(** The variables before [housewiz_device_initialize]: [Devices] is a null
    pointer, an array without any slot. *)
Definition world_zero : world :=
  {| DeviceListChanged := 0; Devices := []; DevicesCount := 0;
     DevicesSpace := 0; Networks := []; LastRetry := 0; LastSense := 0 |}.

Definition set_DeviceListChanged (v : Z) (w : world) : world :=
  {| DeviceListChanged := v; Devices := Devices w;
     DevicesCount := DevicesCount w; DevicesSpace := DevicesSpace w;
     Networks := Networks w; LastRetry := LastRetry w;
     LastSense := LastSense w |}.

Definition set_Devices (v : list DeviceMap) (w : world) : world :=
  {| DeviceListChanged := DeviceListChanged w; Devices := v;
     DevicesCount := DevicesCount w; DevicesSpace := DevicesSpace w;
     Networks := Networks w; LastRetry := LastRetry w;
     LastSense := LastSense w |}.

Definition set_DevicesCount (v : Z) (w : world) : world :=
  {| DeviceListChanged := DeviceListChanged w; Devices := Devices w;
     DevicesCount := v; DevicesSpace := DevicesSpace w;
     Networks := Networks w; LastRetry := LastRetry w;
     LastSense := LastSense w |}.

Definition set_DevicesSpace (v : Z) (w : world) : world :=
  {| DeviceListChanged := DeviceListChanged w; Devices := Devices w;
     DevicesCount := DevicesCount w; DevicesSpace := v;
     Networks := Networks w; LastRetry := LastRetry w;
     LastSense := LastSense w |}.

Definition set_Networks (v : list NetworkMap) (w : world) : world :=
  {| DeviceListChanged := DeviceListChanged w; Devices := Devices w;
     DevicesCount := DevicesCount w; DevicesSpace := DevicesSpace w;
     Networks := v; LastRetry := LastRetry w; LastSense := LastSense w |}.

Definition set_LastRetry (v : Z) (w : world) : world :=
  {| DeviceListChanged := DeviceListChanged w; Devices := Devices w;
     DevicesCount := DevicesCount w; DevicesSpace := DevicesSpace w;
     Networks := Networks w; LastRetry := v; LastSense := LastSense w |}.

Definition set_LastSense (v : Z) (w : world) : world :=
  {| DeviceListChanged := DeviceListChanged w; Devices := Devices w;
     DevicesCount := DevicesCount w; DevicesSpace := DevicesSpace w;
     Networks := Networks w; LastRetry := LastRetry w; LastSense := v |}.

(** [Devices[i]] read: [None] outside the allocated array. *)
Definition slot (w : world) (i : Z) : option DeviceMap :=
  if i <? 0 then None else Devices w !! Z.to_nat i.

(** [Devices[i]] written; every use follows a read of the same slot. *)
Definition store (i : Z) (d : DeviceMap) (w : world) : world :=
  set_Devices (<[Z.to_nat i := d]> (Devices w)) w.

(** ** What the module sends and logs *)

Inductive wizmsg :=
| Registration (id : Z) (phoneIp phoneMac : string)
| SetPilot (id : Z) (state : bool).

(** The quote character, code 34. *)
Definition dq : string := String (ascii_of_nat 34) EmptyString.

(** The text [snprintf] builds for each message. *)
Definition wiz_text (m : wizmsg) : string :=
  match m with
  | Registration id phoneIp phoneMac =>
      "{" +:+ dq +:+ "method" +:+ dq +:+ ": " +:+ dq +:+ "registration" +:+ dq
      +:+ ", " +:+ dq +:+ "id" +:+ dq +:+ ": " +:+ decimal id
      +:+ ", " +:+ dq +:+ "params" +:+ dq +:+ ":{"
      +:+ dq +:+ "phoneIp" +:+ dq +:+ ": " +:+ dq +:+ phoneIp +:+ dq
      +:+ ", " +:+ dq +:+ "register" +:+ dq +:+ ":true, "
      +:+ dq +:+ "phoneMac" +:+ dq +:+ ":" +:+ dq +:+ phoneMac +:+ dq +:+ "}}"
  | SetPilot id state =>
      "{" +:+ dq +:+ "method" +:+ dq +:+ ": " +:+ dq +:+ "setPilot" +:+ dq
      +:+ ", " +:+ dq +:+ "id" +:+ dq +:+ ": " +:+ decimal id
      +:+ ", " +:+ dq +:+ "env" +:+ dq +:+ ":" +:+ dq +:+ "pro" +:+ dq
      +:+ ", " +:+ dq +:+ "params" +:+ dq +:+ ": {"
      +:+ dq +:+ "state" +:+ dq +:+ ": "
      +:+ (if state then "true" else "false") +:+ "}}"
  end.

Inductive output :=
| Sendto (a : sockaddr_in) (d : wizmsg)
| Event (category object action text : string)
| Trace (category text : string).


(** C truth of an [int]. *)
Definition truthy (x : Z) : bool := negb (x =? 0).

Definition onoff (x : Z) : string := if truthy x then "on" else "off".

(** ** Sending *)

(** [housewiz_device_send]: one [sendto]; a failure of [sendto] is traced
    by the log collaborator and changes nothing here. *)
Definition housewiz_device_send (a : sockaddr_in) (d : wizmsg) : list output :=
  [Sendto a d].

(** [housewiz_device_sense]: one registration per known network. *)
Definition housewiz_device_sense
    (nets : list NetworkMap) (a : sockaddr_in) (id : Z) : list output :=
  flat_map
    (fun n => housewiz_device_send a (Registration id (net_ip n) (net_mac n)))
    nets.

(** [housewiz_device_control (device, state)], [d] being [Devices[device]]:
    the datagram goes to the address the record holds. *)
Definition housewiz_device_control
    (device state : Z) (d : DeviceMap) : list output :=
  housewiz_device_send (ipaddress d)
    (SetPilot (WIZ_ID_OFFSET + device) (truthy state)).

(** ** Read accessors *)

Definition housewiz_device_count (w : world) : Z := DevicesCount w.

Definition housewiz_device_changed (w : world) : Z * world :=
  if truthy (DeviceListChanged w) then (1, set_DeviceListChanged 0 w)
  else (0, w).

(** The guard all accessors and [housewiz_device_set] share:
    [point < 0 || point > DevicesCount]. *)
Definition out_of_range (w : world) (point : Z) : bool :=
  (point <? 0) || (DevicesCount w <? point).

(** A returned null pointer is the inner [None]. *)
Definition housewiz_device_name (point : Z) (w : world)
    : option (option string) :=
  if out_of_range w point then Some None
  else d ← slot w point; Some (Some (name d)).

Definition housewiz_device_commanded (point : Z) (w : world) : option Z :=
  if out_of_range w point then Some 0
  else d ← slot w point; Some (commanded d).

Definition housewiz_device_deadline (point : Z) (w : world) : option Z :=
  if out_of_range w point then Some 0
  else d ← slot w point; Some (deadline d).

Definition housewiz_device_failure (point : Z) (w : world)
    : option (option string) :=
  if out_of_range w point then Some None
  else d ← slot w point;
       Some (if truthy (detected d) then None else Some "silent").

Definition housewiz_device_get (point : Z) (w : world) : option Z :=
  if out_of_range w point then Some 0
  else d ← slot w point; Some (status d).

(** ** housewiz_device_set *)

(** The body of [housewiz_device_set] past its guard, on [Devices[device]]. *)
Definition set_device
    (now device state pulse : Z) (d : DeviceMap) : DeviceMap * list output :=
  let namedstate := if truthy state then "on" else "off" in
  let '(d1, o1) :=
    if 0 <? pulse then
      (set_deadline (now + pulse) d,
       [Event "DEVICE" (name d) "SET"
              (namedstate +:+ " FOR " +:+ decimal pulse +:+ " SECONDS")])
    else
      (set_deadline 0 d, [Event "DEVICE" (name d) "SET" namedstate]) in
  let d2 := set_pending (now + 5) (set_commanded state d1) in
  (* Only send a command if we detected the device on the network. *)
  let o2 :=
    if truthy (detected d2) then housewiz_device_control device state d2
    else [] in
  (d2, o1 ++ o2).

(** Result 0: the device is not known; 1: success. *)
Definition housewiz_device_set
    (now device state pulse : Z) (w : world)
    : option (Z * world * list output) :=
  if out_of_range w device then Some (0, w, [])
  else
    d ← slot w device;
    let '(d', o) := set_device now device state pulse d in
    Some (1, store device d' w, o).

(** ** housewiz_device_periodic *)

Definition housewiz_device_reset (st : Z) (d : DeviceMap) : DeviceMap :=
  set_deadline 0 (set_pending 0 (set_status st (set_commanded st d))).

(** The four steps of the loop body, on [Devices[i]], in source order. *)
Definition sense_step
    (nets : list NetworkMap) (now i : Z) (d : DeviceMap)
    : DeviceMap * list output :=
  if last_sense d + 35 <=? now then
    (set_last_sense now d,
     housewiz_device_sense nets (ipaddress d) (WIZ_ID_OFFSET + i))
  else (d, []).

(** If we did not detect a device for 3 senses, consider it failed. *)
Definition silent_step (now : Z) (d : DeviceMap) : DeviceMap * list output :=
  if (0 <? detected d) && (detected d <? now - 100) then
    (set_detected 0 (housewiz_device_reset 0 d),
     [Event "DEVICE" (name d) "SILENT" ("MAC ADDRESS " +:+ macaddress d)])
  else (d, []).

Definition pulse_step (now : Z) (d : DeviceMap) : DeviceMap * list output :=
  if (0 <? deadline d) && (deadline d <=? now) then
    (set_deadline 0 (set_pending (now + 5) (set_commanded 0 d)),
     [Event "DEVICE" (name d) "RESET" "END OF PULSE"])
  else (d, []).

Definition mismatch_step
    (now i : Z) (d : DeviceMap) : DeviceMap * list output :=
  if negb (status d =? commanded d) then
    if now <? pending d then
      if truthy (detected d) then
        (d, Event "DEVICE" (name d) "RETRY" (onoff (commanded d))
            :: housewiz_device_control i (commanded d) d)
      else (d, [])
    else
      (* The ongoing command timed out, forget and cleanup. *)
      (housewiz_device_reset (status d) d,
       if truthy (pending d) then [Event "DEVICE" (name d) "TIMEOUT" ""]
       else [])
  else (d, []).

Definition periodic_device
    (nets : list NetworkMap) (now i : Z) (d : DeviceMap)
    : DeviceMap * list output :=
  let '(d1, o1) := sense_step nets now i d in
  let '(d2, o2) := silent_step now d1 in
  let '(d3, o3) := pulse_step now d2 in
  let '(d4, o4) := mismatch_step now i d3 in
  (d4, o1 ++ o2 ++ o3 ++ o4).

(** [for (i = ...; i < DevicesCount; ++i)], [n] iterations left. *)
Fixpoint periodic_loop (now i : Z) (n : nat) (w : world)
    : option (world * list output) :=
  match n with
  | O => Some (w, [])
  | S n' =>
      d ← slot w i;
      let '(d', o) := periodic_device (Networks w) now i d in
      '(w', o') ← periodic_loop now (i + 1) n' (store i d' w);
      Some (w', o ++ o')
  end.

(** [scan] is what [housewiz_device_enumerate] finds when it runs: the
    interfaces of the host, which replace [Networks] wholesale. *)
Definition housewiz_device_periodic
    (scan : list NetworkMap) (now : Z) (w : world)
    : option (world * list output) :=
  let '(w1, o1) :=
    if LastSense w + 60 <=? now then
      (set_LastSense now (set_Networks scan w),
       housewiz_device_sense scan WizBroadcast 1)
    else (w, []) in
  if now <? LastRetry w1 + 5 then Some (w1, o1)
  else
    let w2 := set_LastRetry now w1 in
    '(w3, o3) ← periodic_loop now 0 (Z.to_nat (DevicesCount w2)) w2;
    Some (w3, o1 ++ o3).

(** ** housewiz_device_refresh *)

(** What the configuration store answers.  [config_devices] is the array at
    [.wiz.devices] ([None]: [housewiz_config_array] is negative); an entry
    is [None] when [housewiz_config_object] is not positive; a field is
    [None] when [housewiz_config_string] is a null pointer. *)
Record ConfigDevice := {
  cfg_name : option string;
  cfg_address : option string;
  cfg_description : option string
}.

Record Config := {
  config_size : Z;
  config_devices : option (list (option ConfigDevice))
}.

(** The first loop: the fields wiped in each record of the old array. *)
Definition clear_device (d : DeviceMap) : DeviceMap :=
  set_detected 0
    (set_pending 0
       (set_deadline 0
          (set_description EmptyString
             (set_macaddress EmptyString (set_name EmptyString d))))).

Fixpoint clear_loop (i : Z) (n : nat) (w : world) : option world :=
  match n with
  | O => Some w
  | S n' => d ← slot w i; clear_loop (i + 1) n' (store i (clear_device d) w)
  end.

(** The body of the second loop for a configuration entry that exists. *)
Definition load_device (c : ConfigDevice) (d : DeviceMap) : DeviceMap :=
  let d1 := match cfg_name c with
            | Some s => set_name (safecpy s 32) d
            | None => d
            end in
  let d2 := match cfg_address c with
            | Some s => set_macaddress (safecpy s 16) d1
            | None => d1
            end in
  let d3 := match cfg_description c with
            | Some s => set_description (safecpy s 256) d2
            | None => d2
            end in
  (* Use last status known. *)
  housewiz_device_reset (status d3) d3.

Fixpoint load_loop (i : Z) (entries : list (option ConfigDevice)) (w : world)
    : option world :=
  match entries with
  | [] => Some w
  | None :: rest => load_loop (i + 1) rest w
  | Some c :: rest =>
      d ← slot w i; load_loop (i + 1) rest (store i (load_device c d) w)
  end.

(** [room] tells whether [calloc] finds the memory.  The result is the
    returned string, [None] for the null pointer of a success. *)
Definition housewiz_device_refresh
    (reason : string) (cfg : Config) (room : bool) (w : world)
    : option (option string * world * list output) :=
  let o := [Event "CONFIG" "wiz" "ACTIVATING" reason] in
  w1 ← clear_loop 0 (Z.to_nat (DevicesCount w)) w;
  let w2 := set_DevicesCount 0 w1 in
  let load (entries : list (option ConfigDevice)) :=
    let w3 := set_DevicesCount (Z.of_nat (length entries)) w2 in
    let w4 := set_DevicesSpace (DevicesCount w3 + 32) w3 in
    if room then
      let w5 :=
        set_Devices (replicate (Z.to_nat (DevicesSpace w4)) DeviceMap_zero) w4
      in
      w6 ← load_loop 0 entries w5; Some (None, w6, o)
    else Some (Some "no more memory", set_Devices [] w4, o) in
  if 0 <? config_size cfg then
    match config_devices cfg with
    | None => Some (Some "cannot find devices array", w2, o)
    | Some entries => load entries
    end
  else load [].

(** ** housewiz_device_receive *)

Inductive jvalue :=
| JString (s : string)
| JBool (b : bool)
| JOther.

(** One datagram as [recvfrom] and the JSON parser hand it over: the size
    [recvfrom] returns and the sender address, the text, the parser's error
    if any, and the tokens [echttp_json_search] finds at [.method],
    [.params.mac] and [.params.state] ([None]: not found). *)
Record inbound := {
  in_size : Z;
  in_addr : sockaddr_in;
  in_data : string;
  in_error : option string;
  in_method : option jvalue;
  in_mac : option jvalue;
  in_state : option jvalue
}.

Fixpoint mac_search_loop (macaddress0 : string) (i : Z) (n : nat) (w : world)
    : option Z :=
  match n with
  | O => Some (-1)
  | S n' =>
      d ← slot w i;
      if strcasecmp macaddress0 (macaddress d) =? 0 then Some i
      else mac_search_loop macaddress0 (i + 1) n' w
  end.

Definition housewiz_device_mac_search (macaddress0 : string) (w : world)
    : option Z :=
  mac_search_loop macaddress0 0 (Z.to_nat (DevicesCount w)) w.

(** The record of a device that announced itself, [d] being the free slot
    [Devices[device]]. *)
Definition announce_device
    (now : Z) (mac : string) (device : Z) (d : DeviceMap)
    : DeviceMap * list output :=
  let d1 := set_name (strtake 31 ("wiz" +:+ decimal (device + 1))) d in
  let d2 := set_macaddress (strtake 15 mac) d1 in
  let d3 := set_description (strtake 255 "autogenerated") d2 in
  (* Skip the DETECTED event. *)
  (set_last_sense 0 (set_detected now d3),
   [Event "DEVICE" (name d3) "ADDED" ("MAC ADDRESS " +:+ mac)]).

(** The block under [if (device >= 0)], [d] being [Devices[device]].
    [status0] is the local [status]: the reported state of a syncPilot; on a
    firstBeat it is not initialised and assigned 1 before it is read. *)
Definition receive_device
    (now : Z) (addr : sockaddr_in) (mac : string) (manual : bool)
    (status0 device : Z) (d : DeviceMap) : DeviceMap * list output :=
  let o1 :=
    if truthy (detected d) then []
    else [Event "DEVICE" (name d) "DETECTED" ("MAC ADDRESS " +:+ mac)] in
  let d1 := set_detected now d in
  let '(d2, st, o2) :=
    if manual then
      let d' := set_pending 0 (set_commanded 1 d1) in
      (d', 1, housewiz_device_control device 1 d')   (* Acknowledge. *)
    else (d1, status0, []) in
  let '(d3, o3) :=
    if negb (status d2 =? st) then
      let '(d', o') :=
        if truthy (pending d2) then
          if st =? commanded d2 then
            (set_pending 0 d2,                       (* Command complete. *)
             [Event "DEVICE" (name d2) "CONFIRMED"
                    ("FROM " +:+ onoff (status d2) +:+ " TO " +:+ onoff st)])
          else (d2, [])
        else
          (set_commanded st d2,                      (* By someone else. *)
           [Event "DEVICE" (name d2)
                  (if manual then "OPERATED" else "CHANGED")
                  ("FROM " +:+ onoff (status d2) +:+ " TO " +:+ onoff st)]) in
      (set_status st d', o')
    else (d2, []) in
  let d4 :=
    set_ipaddress
      {| sin_family := sin_family addr;
         sin_port := htons WizDevicePort;
         sin_addr := sin_addr addr |} d3 in
  (d4, o1 ++ o2 ++ o3).

(** [if (device >= 0) ...] to the end of [housewiz_device_receive]. *)
Definition receive_known
    (now : Z) (addr : sockaddr_in) (mac : string) (manual : bool)
    (status0 device : Z) (w : world) : option (world * list output) :=
  if 0 <=? device then
    d ← slot w device;
    let '(d', o) := receive_device now addr mac manual status0 device d in
    Some (store device d' w, o)
  else Some (w, []).

(** The part of [housewiz_device_receive] after the message was decoded:
    [device] is what [housewiz_device_mac_search] returned. *)
Definition receive_message
    (now : Z) (addr : sockaddr_in) (mac : string) (manual : bool)
    (status0 device : Z) (w : world) : option (world * list output) :=
  if (device <? 0) && (DevicesCount w <? DevicesSpace w) then
    let w1 := set_DeviceListChanged 1 w in
    if DevicesSpace w1 <=? DevicesCount w1 then Some (w1, [])
    else
      let device1 := DevicesCount w1 in
      let w2 := set_DevicesCount (DevicesCount w1 + 1) w1 in
      d ← slot w2 device1;
      let '(d', o1) := announce_device now mac device1 d in
      '(w3, o2) ←
        receive_known now addr mac manual status0 device1
          (store device1 d' w2);
      Some (w3, o1 ++ o2)
  else receive_known now addr mac manual status0 device w.

(** [sizeof(data)] for the local [char data[256]]. *)
Definition sizeof_data : Z := 256.

(** [recvfrom] is given all [sizeof(data)] bytes of the buffer, so it returns
    [sizeof(data)] for a datagram of that many bytes or more, and
    [data[size] = 0] then writes one byte past the end of [data]. *)
Definition housewiz_device_receive (now : Z) (pkt : inbound) (w : world)
    : option (world * list output) :=
  if 0 <? in_size pkt then
    if sizeof_data <=? in_size pkt then None else
    match in_error pkt with
    | Some error =>
        Some (w, [Trace "DEVICE" (error +:+ ": " +:+ in_data pkt)])
    | None =>
        match in_method pkt with
        | Some (JString method) =>
            if negb (String.eqb method "firstBeat")
               && negb (String.eqb method "syncPilot")
            then Some (w, [])
            else
              match in_mac pkt with
              | Some (JString mac) =>
                  device ← housewiz_device_mac_search mac w;
                  if String.eqb method "firstBeat" then
                    (* Someone just turned it on manually, do not fight. *)
                    receive_message now (in_addr pkt) mac true 0 device w
                  else
                    match in_state pkt with
                    | Some (JBool b) =>
                        receive_message now (in_addr pkt) mac false
                          (Z.b2z b) device w
                    | _ =>
                        Some (w, [Trace "DEVICE"
                                    ("no valid state in: " +:+ in_data pkt)])
                    end
              | _ =>
                  Some (w, [Trace "DEVICE"
                              ("no valid MAC address in: " +:+ in_data pkt)])
              end
        | _ =>
            Some (w, [Trace "DEVICE"
                        ("no valid method in: " +:+ in_data pkt)])
        end
    end
  else Some (w, []).

(** ** Registries, messages and runs the properties are stated on *)

(** The shape every operation leaves the registry in: [DevicesSpace] slots
    are allocated and the first [DevicesCount] of them are in use. *)
Definition wf (w : world) : Prop :=
  0 <= DevicesCount w <= DevicesSpace w
  /\ DevicesSpace w = Z.of_nat (length (Devices w)).

(** A datagram that fits the handler's buffer with its terminator and
    decodes to a syncPilot of [mac] reporting [b]. *)
Definition is_syncPilot (pkt : inbound) (mac : string) (b : bool) : Prop :=
  0 < in_size pkt < sizeof_data
  /\ in_error pkt = None
  /\ in_method pkt = Some (JString "syncPilot")
  /\ in_mac pkt = Some (JString mac)
  /\ in_state pkt = Some (JBool b).

(** A datagram that fits the handler's buffer with its terminator and
    decodes to a firstBeat of [mac]. *)
Definition is_firstBeat (pkt : inbound) (mac : string) : Prop :=
  0 < in_size pkt < sizeof_data
  /\ in_error pkt = None
  /\ in_method pkt = Some (JString "firstBeat")
  /\ in_mac pkt = Some (JString mac).

Definition announces (pkt : inbound) (mac : string) : Prop :=
  is_firstBeat pkt mac \/ exists b, is_syncPilot pkt mac b.


(** An output that is a CHANGED or OPERATED notification. *)
Definition is_changed (o : output) : bool :=
  match o with
  | Event _ _ action _ =>
      String.eqb action "CHANGED" || String.eqb action "OPERATED"
  | _ => false
  end.

(** An output that is a datagram. *)
Definition is_datagram (o : output) : bool :=
  match o with
  | Sendto _ _ => true
  | _ => false
  end.

(** Whether [housewiz_device_periodic (now)] gets past
    [if (now < LastRetry + 5) return] and runs the loop over the devices. *)
Definition sweeps (now : Z) (w : world) : bool := LastRetry w + 5 <=? now.

(** [housewiz_device_periodic] called at each of [ticks] in turn; the second
    result lists the calls that ran the loop. *)
Fixpoint run_periodic
    (scan : Z -> list NetworkMap) (ticks : list Z) (w : world)
    : option (world * list Z) :=
  match ticks with
  | [] => Some (w, [])
  | t :: rest =>
      '(w1, _) ← housewiz_device_periodic (scan t) t w;
      '(w2, sw) ← run_periodic scan rest w1;
      Some (w2, if sweeps t w then t :: sw else sw)
  end.

(** The nominal cadence: one call per second, at [t+1], ..., [t+n]. *)
Fixpoint seconds (t : Z) (n : nat) : list Z :=
  match n with
  | O => []
  | S n' => (t + 1) :: seconds (t + 1) n'
  end.

(** Datagrams processed in arrival order, each with its clock reading. *)
Fixpoint run_receive (msgs : list (Z * inbound)) (w : world) : option world :=
  match msgs with
  | [] => Some w
  | (now, pkt) :: rest =>
      '(w1, _) ← housewiz_device_receive now pkt w;
      run_receive rest w1
  end.

(** The operations a caller and the event loop can apply. *)
Inductive op :=
| OpSet (now device state pulse : Z)
| OpReceive (now : Z) (pkt : inbound)
| OpPeriodic (scan : list NetworkMap) (now : Z)
| OpRefresh (reason : string) (cfg : Config) (room : bool).

Definition apply_op (o : op) (w : world) : option world :=
  match o with
  | OpSet now device state pulse =>
      '(_, w', _) ← housewiz_device_set now device state pulse w; Some w'
  | OpReceive now pkt =>
      '(w', _) ← housewiz_device_receive now pkt w; Some w'
  | OpPeriodic scan now =>
      '(w', _) ← housewiz_device_periodic scan now w; Some w'
  | OpRefresh reason cfg room =>
      '(_, w', _) ← housewiz_device_refresh reason cfg room w; Some w'
  end.

Fixpoint run_ops (ops : list op) (w : world) : option world :=
  match ops with
  | [] => Some w
  | o :: rest => w' ← apply_op o w; run_ops rest w'
  end.



(** ** A registry with one configured lamp *)

Definition lamp1 : ConfigDevice :=
  {| cfg_name := Some "lamp1";
     cfg_address := Some "aabbccddeeff";
     cfg_description := Some "desk lamp" |}.

Definition config1 : Config :=
  {| config_size := 1; config_devices := Some [Some lamp1] |}.

(** 192.168.1.50, source port 49152. *)
Definition sender : sockaddr_in :=
  {| sin_family := AF_INET; sin_port := htons 49152;
     sin_addr := 3232235826 |}.

Definition syncPilot (mac : string) (b : bool) : inbound :=
  {| in_size := 64; in_addr := sender; in_data := "syncPilot";
     in_error := None; in_method := Some (JString "syncPilot");
     in_mac := Some (JString mac); in_state := Some (JBool b) |}.

Definition firstBeat (mac : string) : inbound :=
  {| in_size := 64; in_addr := sender; in_data := "firstBeat";
     in_error := None; in_method := Some (JString "firstBeat");
     in_mac := Some (JString mac); in_state := None |}.

Definition no_scan : Z -> list NetworkMap := fun _ => [].

(** The registry after [housewiz_device_initialize] with [config1]. *)
Definition startup : list op := [OpRefresh "ON STARTUP" config1 true].

(** ... then the lamp reports "on" at 990 and a sweep runs at 999. *)
Definition lamp_on : list op :=
  startup ++ [OpReceive 990 (syncPilot "aabbccddeeff" true);
              OpPeriodic [] 999].

(** ... or the lamp was heard "off" at 990 and a sweep runs at 999. *)
Definition lamp_off : list op :=
  startup ++ [OpReceive 990 (syncPilot "aabbccddeeff" false);
              OpPeriodic [] 999].

(** The registry a list of operations builds from the variables' initial
    values. *)
Definition world_of (ops : list op) : world :=
  default world_zero (run_ops ops world_zero).

(** ** The phases of a command *)





(** The commanded state of a device after the calls of [ticks]. *)
Definition commanded_after
    (scan : Z -> list NetworkMap) (ticks : list Z) (device : Z) (w : world)
    : option Z :=
  '(w', _) ← run_periodic scan ticks w;
  r ← slot w' device;
  Some (commanded r).

(** ** housewiz_device_enumerate *)

Definition NETWORKS_MAX : Z := 8.
Definition IFF_LOOPBACK : Z := 8.

(** What [ifa_addr] points to: nothing, a [struct sockaddr_in] (family
    [AF_INET]) with its [s_addr], a [struct sockaddr_ll] (family
    [AF_PACKET]) with its [sll_halen] and the bytes of [sll_addr], or an
    address of another family. *)
Inductive sockaddr :=
| SockNone
| SockInet (s_addr : Z)
| SockPacket (sll_halen : Z) (sll_addr : list Z)
| SockOther.

(** One element of the list [getifaddrs] returns. *)
Record ifaddrs := {
  ifa_name : string;
  ifa_flags : Z;
  ifa_addr : sockaddr
}.

(** The search loop of [housewiz_device_enumerate_add]: the index of the
    first entry called [name0], from index [i] on. *)
Fixpoint network_find (name0 : string) (i : Z) (nets : list NetworkMap)
    : option Z :=
  match nets with
  | [] => None
  | n :: rest =>
      if String.eqb name0 (net_name n) then Some i
      else network_find name0 (i + 1) rest
  end.

(** [nets] is [Networks[0 .. NetworksCount-1]].  Not found: add new entry if
    there is room, or else overwrite the last. *)
Definition housewiz_device_enumerate_add
    (name0 : string) (nets : list NetworkMap) : Z * list NetworkMap :=
  match network_find name0 0 nets with
  | Some i => (i, nets)
  | None =>
      let nets1 :=
        if NETWORKS_MAX <=? Z.of_nat (length nets)
        then take (Z.to_nat (NETWORKS_MAX - 1)) nets else nets in
      (Z.of_nat (length nets1),
       nets1 ++ [{| net_name := safecpy name0 32;
                    net_ip := EmptyString; net_mac := EmptyString |}])
  end.

(** [ntohl] on a little-endian host: the four bytes swapped. *)
Definition ntohl (x : Z) : Z :=
  Z.lor (Z.shiftl (Z.land x 255) 24)
    (Z.lor (Z.shiftl (Z.land (Z.shiftr x 8) 255) 16)
       (Z.lor (Z.shiftl (Z.land (Z.shiftr x 16) 255) 8)
          (Z.land (Z.shiftr x 24) 255))).

(** The text written into [Networks[idx].ip], a buffer of 20 bytes. *)
Definition ip_text (s_addr : Z) : string :=
  let ip := ntohl s_addr in
  strtake 19
    (decimal (Z.land (Z.shiftr ip 24) 255) +:+ "." +:+
     decimal (Z.land (Z.shiftr ip 16) 255) +:+ "." +:+
     decimal (Z.land (Z.shiftr ip 8) 255) +:+ "." +:+
     decimal (Z.land ip 255)).

Definition bin2hex : string := "0123456789abcdef".

Definition hexdigit (n : Z) : string :=
  match String.get (Z.to_nat n) bin2hex with
  | Some c => String c EmptyString
  | None => EmptyString
  end.

(** The two characters written for one byte of the hardware address. *)
Definition hexbyte (b : Z) : string :=
  hexdigit (b / 16) +:+ hexdigit (Z.land b 15).

(** The text written into [Networks[idx].mac] for the first [halen] bytes
    of [sll_addr]. *)
Fixpoint mac_text (halen : nat) (sll_addr : list Z) : string :=
  match halen, sll_addr with
  | S n, b :: rest => hexbyte b +:+ mac_text n rest
  | _, _ => EmptyString
  end.

Definition set_net_ip (v : string) (n : NetworkMap) : NetworkMap :=
  {| net_name := net_name n; net_ip := v; net_mac := net_mac n |}.

Definition set_net_mac (v : string) (n : NetworkMap) : NetworkMap :=
  {| net_name := net_name n; net_ip := net_ip n; net_mac := v |}.

(** The loop over the interfaces.  The [mac] field has 16 bytes and
    [sll_addr] has 8: a hardware address of 8 to 15 bytes passes the test
    on [sll_halen] and is written (and, above 8, read) past their end, which
    has no defined behaviour; the result is [None] there. *)
Fixpoint enumerate_loop (cursor : list ifaddrs) (nets : list NetworkMap)
    : option (list NetworkMap) :=
  match cursor with
  | [] => Some nets
  | c :: rest =>
      if negb (Z.land (ifa_flags c) IFF_LOOPBACK =? 0) then
        enumerate_loop rest nets
      else
        match ifa_addr c with
        | SockNone => enumerate_loop rest nets
        | SockInet s_addr =>
            let '(idx, nets1) :=
              housewiz_device_enumerate_add (ifa_name c) nets in
            enumerate_loop rest
              (alter (set_net_ip (ip_text s_addr)) (Z.to_nat idx) nets1)
        | SockPacket sll_halen sll_addr =>
            if 16 <=? sll_halen then enumerate_loop rest nets
            else if 8 <=? sll_halen then None
            else
              let '(idx, nets1) :=
                housewiz_device_enumerate_add (ifa_name c) nets in
              enumerate_loop rest
                (alter (set_net_mac (mac_text (Z.to_nat sll_halen) sll_addr))
                       (Z.to_nat idx) nets1)
        | SockOther => enumerate_loop rest nets
        end
  end.

(** [interfaces] is the list [getifaddrs] hands over, [None] when it
    fails.  The result is the new [Networks[0 .. NetworksCount-1]]: the
    previous list is erased first. *)
Definition housewiz_device_enumerate (interfaces : option (list ifaddrs))
    : option (list NetworkMap) :=
  match interfaces with
  | None => Some []
  | Some cursor => enumerate_loop cursor []
  end.

(** ** housewiz_device_live_config *)

(** The object added to the array [devices] for one record, none for a
    record without a name or without a MAC address. *)
Definition live_config_device (d : DeviceMap)
    : option (string * string * string) :=
  if String.eqb (name d) EmptyString || String.eqb (macaddress d) EmptyString
  then None
  else Some (name d, macaddress d, description d).

Fixpoint live_config_loop (i : Z) (n : nat) (w : world)
    : option (list (string * string * string)) :=
  match n with
  | O => Some []
  | S n' =>
      d ← slot w i;
      rest ← live_config_loop (i + 1) n' w;
      Some (match live_config_device d with
            | Some e => e :: rest
            | None => rest
            end)
  end.

(** The objects [housewiz_device_live_config] adds under [wiz.devices], in
    order, each with its [name], [address] and [description]; turning them
    into text is the JSON library's part. *)
Definition housewiz_device_live_config (w : world)
    : option (list (string * string * string)) :=
  live_config_loop 0 (Z.to_nat (DevicesCount w)) w.

(** ** More registries and runs *)

(** The operations whose reloads find their memory. *)
Definition allocates (o : op) : Prop :=
  match o with
  | OpRefresh _ _ room => room = true
  | _ => True
  end.

(** [n] devices that announce themselves, one per second from 2000 on,
    with the MAC addresses wiz0, wiz1, ... *)
Definition announce_many (n : nat) : list op :=
  map (fun k => OpReceive (2000 + Z.of_nat k)
                  (syncPilot ("wiz" +:+ decimal (Z.of_nat k)) true))
      (seq 0 n).

(** The registry of the lamp once 32 more devices have announced
    themselves: every allocated slot is in use. *)
Definition full_house : list op := startup ++ announce_many 32.

(** What the second loop of [housewiz_device_refresh] makes of the zeroed
    slot for one entry of the configuration. *)
Definition loaded (e : option ConfigDevice) : DeviceMap :=
  match e with
  | Some c => load_device c DeviceMap_zero
  | None => DeviceMap_zero
  end.

(** The host of the examples: a loopback interface and one Ethernet
    interface with the address 192.168.1.2 and a 6-byte hardware address. *)
Definition host1 : list ifaddrs :=
  [ {| ifa_name := "lo"; ifa_flags := 73; ifa_addr := SockInet 16777343 |};
    {| ifa_name := "eth0"; ifa_flags := 4163;
       ifa_addr := SockPacket 6 [184; 39; 235; 1; 2; 3; 0; 0] |};
    {| ifa_name := "eth0"; ifa_flags := 4163;
       ifa_addr := SockInet 33663168 |};
    {| ifa_name := "eth0"; ifa_flags := 4163; ifa_addr := SockOther |} ].

(** An output that is the notification [action]. *)
Definition is_event (action : string) (o : output) : bool :=
  match o with
  | Event _ _ a _ => String.eqb a action
  | _ => false
  end.

(** An output that is a setPilot datagram. *)
Definition is_setPilot (o : output) : bool :=
  match o with
  | Sendto _ (SetPilot _ _) => true
  | _ => false
  end.

(** The configuration entry that holds one exported object. *)
Definition config_entry (e : string * string * string)
    : option ConfigDevice :=
  Some {| cfg_name := Some (fst (fst e));
          cfg_address := Some (snd (fst e));
          cfg_description := Some (snd e) |}.

(** An exported object that the fields of a record can hold in full. *)
Definition fits_record (e : string * string * string) : Prop :=
  fst (fst e) <> EmptyString /\ snd (fst e) <> EmptyString
  /\ (String.length (fst (fst e)) <= 31)%nat
  /\ (String.length (snd (fst e)) <= 15)%nat
  /\ (String.length (snd e) <= 255)%nat.

(** Reading hexadecimal text back: the value of a digit 0-9 or a-f, and the
    bytes of a text of such digits taken two by two. *)
Definition hexval (c : ascii) : option Z :=
  let n := Z.of_N (N_of_ascii c) in
  if (48 <=? n) && (n <=? 57) then Some (n - 48)
  else if (97 <=? n) && (n <=? 102) then Some (n - 87)
  else None.

Fixpoint unhex (s : string) : option (list Z) :=
  match s with
  | EmptyString => Some []
  | String c1 (String c2 rest) =>
      h ← hexval c1; l ← hexval c2; bs ← unhex rest;
      Some ((16 * h + l) :: bs)
  | String _ EmptyString => None
  end.

(** An interface [housewiz_device_enumerate] takes up: not a loopback, with
    an IPv4 address or a hardware address shorter than 8 bytes. *)
Definition enumerated (c : ifaddrs) : Prop :=
  Z.land (ifa_flags c) IFF_LOOPBACK = 0
  /\ ((exists s_addr, ifa_addr c = SockInet s_addr)
      \/ (exists sll_halen sll_addr,
            ifa_addr c = SockPacket sll_halen sll_addr /\ sll_halen < 8)).

(** An interface whose hardware address does not fit: 8 to 15 bytes. *)
Definition overlong (c : ifaddrs) : Prop :=
  Z.land (ifa_flags c) IFF_LOOPBACK = 0
  /\ exists sll_halen sll_addr,
       ifa_addr c = SockPacket sll_halen sll_addr /\ 8 <= sll_halen < 16.

(** * Properties *)

(** One step through the option binds and pair matches of an operation,
    leaving the bodies of the operations folded. *)
Tactic Notation "step" := cbn [mbind option_bind fst snd].
Tactic Notation "step" "in" hyp(H) := cbn [mbind option_bind fst snd] in H.

(** ** The array *)

Lemma slot_Some w i d :
  slot w i = Some d -> 0 <= i < Z.of_nat (length (Devices w)).
Proof.
  unfold slot. destruct (Z.ltb_spec i 0); [discriminate|].
  intros H1. apply lookup_lt_Some in H1. lia.
Qed.

Lemma slot_is_Some w i :
  0 <= i < Z.of_nat (length (Devices w)) -> exists d, slot w i = Some d.
Proof.
  intros Hi. unfold slot. destruct (Z.ltb_spec i 0); [lia|].
  destruct (lookup_lt_is_Some_2 (Devices w) (Z.to_nat i)) as [d Hd]; [lia|].
  eauto.
Qed.

Lemma slot_store_eq w i d d' :
  slot w i = Some d -> slot (store i d' w) i = Some d'.
Proof.
  intros H. pose proof (slot_Some _ _ _ H) as Hi. unfold slot, store. simpl.
  destruct (Z.ltb_spec i 0); [lia|].
  apply list_lookup_insert_eq. lia.
Qed.

Lemma slot_store_ne w i j d' :
  0 <= i -> i <> j -> slot (store i d' w) j = slot w j.
Proof.
  intros Hi Hne. unfold slot, store. simpl.
  destruct (Z.ltb_spec j 0); [reflexivity|].
  apply list_lookup_insert_ne. lia.
Qed.

Lemma store_length w i d :
  length (Devices (store i d w)) = length (Devices w).
Proof. unfold store. simpl. apply length_insert. Qed.

Lemma wf_store w i d : wf w -> wf (store i d w).
Proof.
  unfold wf. rewrite store_length. unfold store. simpl. tauto.
Qed.

(** ** Strings *)

Lemma strtake_all n s : (String.length s <= n)%nat -> strtake n s = s.
Proof.
  revert n. induction s as [|c s IH]; intros [|n] H; simpl in *;
    try reflexivity; try lia.
  rewrite IH; [reflexivity | lia].
Qed.

Lemma tolower_zero c : tolower c = 0 -> N_of_ascii c = 0%N.
Proof.
  unfold tolower.
  destruct ((65 <=? Z.of_N (N_of_ascii c)) && (Z.of_N (N_of_ascii c) <=? 90))
    eqn:E; [|lia].
  apply andb_true_iff in E. lia.
Qed.

Lemma strcasecmp_refl a : strcasecmp a a = 0.
Proof.
  induction a as [|c a IH]; simpl; [reflexivity|].
  rewrite Z.eqb_refl. exact IH.
Qed.

Lemma strlower_length a b :
  strlower a = strlower b -> String.length a = String.length b.
Proof.
  revert b. induction a as [|c a IH]; intros [|d b] H; simpl in *;
    try discriminate; [reflexivity|].
  inversion H. f_equal. auto.
Qed.

(** [strcasecmp] sees its arguments through [strlower] only. *)
Lemma strcasecmp_lower a a' b b' :
  strlower a = strlower a' -> strlower b = strlower b' ->
  strcasecmp a b = strcasecmp a' b'.
Proof.
  revert a' b b'.
  induction a as [|c a IH]; intros [|c' a'] [|d b] [|d' b'] Ha Hb;
    simpl in *; try discriminate; try reflexivity.
  - inversion Hb. congruence.
  - inversion Ha. congruence.
  - inversion Ha; inversion Hb; subst.
    repeat match goal with H : tolower _ = tolower _ |- _ => rewrite H end.
    destruct (tolower c' =? tolower d'); [|reflexivity].
    apply IH; assumption.
Qed.

(** On C strings a result 0 means equal up to case. *)
Lemma strcasecmp_zero a b :
  cstring a -> cstring b -> strcasecmp a b = 0 -> strlower a = strlower b.
Proof.
  revert b. induction a as [|c a IH]; intros [|d b] Ha Hb H; simpl in *.
  - reflexivity.
  - destruct Hb as [Hd _]. exfalso. apply Hd, tolower_zero. lia.
  - destruct Ha as [Hc _]. exfalso. apply Hc, tolower_zero. lia.
  - destruct Ha as [_ Ha], Hb as [_ Hb].
    destruct (Z.eqb_spec (tolower c) (tolower d)) as [E|E]; [|lia].
    rewrite E. f_equal. apply IH; assumption.
Qed.

(** ** Decoding a datagram *)

Lemma receive_syncPilot now pkt mac b w :
  is_syncPilot pkt mac b ->
  housewiz_device_receive now pkt w =
    (device ← housewiz_device_mac_search mac w;
     receive_message now (in_addr pkt) mac false (Z.b2z b) device w).
Proof.
  intros (Hs & He & Hm & Ha & Hb). unfold housewiz_device_receive.
  destruct (Z.ltb_spec 0 (in_size pkt)); [|lia].
  destruct (Z.leb_spec sizeof_data (in_size pkt)); [lia|].
  rewrite He, Hm, Ha, Hb. reflexivity.
Qed.

Lemma receive_firstBeat now pkt mac w :
  is_firstBeat pkt mac ->
  housewiz_device_receive now pkt w =
    (device ← housewiz_device_mac_search mac w;
     receive_message now (in_addr pkt) mac true 0 device w).
Proof.
  intros (Hs & He & Hm & Ha). unfold housewiz_device_receive.
  destruct (Z.ltb_spec 0 (in_size pkt)); [|lia].
  destruct (Z.leb_spec sizeof_data (in_size pkt)); [lia|].
  rewrite He, Hm, Ha. reflexivity.
Qed.

Lemma receive_message_found now addr mac manual st device w d :
  0 <= device -> slot w device = Some d ->
  receive_message now addr mac manual st device w =
    Some (store device
            (fst (receive_device now addr mac manual st device d)) w,
          snd (receive_device now addr mac manual st device d)).
Proof.
  intros Hd Hs. unfold receive_message, receive_known.
  destruct (Z.ltb_spec device 0); [lia|]. simpl.
  destruct (Z.leb_spec 0 device); [|lia].
  rewrite Hs. simpl.
  destruct (receive_device now addr mac manual st device d). reflexivity.
Qed.

(** ** A report on one record *)

Lemma receive_device_status now addr mac manual st device d :
  status (fst (receive_device now addr mac manual st device d)) =
    if manual then 1 else st.
Proof.
  unfold receive_device. destruct manual; simpl.
  - destruct (Z.eqb_spec (status d) 1); simpl; [assumption|reflexivity].
  - destruct (Z.eqb_spec (status d) st); simpl; [assumption|].
    destruct (truthy (pending d)); [destruct (st =? commanded d)|];
      reflexivity.
Qed.


(** A syncPilot whose state differs from the recorded status. *)
Lemma receive_device_differs now addr mac st device d :
  status d <> st ->
  let r := receive_device now addr mac false st device d in
  (pending d <> 0 -> st = commanded d ->
     pending (fst r) = 0 /\ commanded (fst r) = commanded d
     /\ existsb is_changed (snd r) = false)
  /\ (pending d = 0 ->
        commanded (fst r) = st /\ pending (fst r) = 0
        /\ existsb is_changed (snd r) = true)
  /\ (pending d <> 0 -> st <> commanded d ->
        commanded (fst r) = commanded d /\ pending (fst r) = pending d
        /\ existsb is_changed (snd r) = false).
Proof.
  intros Hne. unfold receive_device, truthy. simpl.
  destruct (Z.eqb_spec (status d) st) as [E|_]; [contradiction|]. simpl.
  destruct (Z.eqb_spec (pending d) 0) as [Hp|Hp];
    destruct (Z.eqb_spec st (commanded d)) as [Hc|Hc];
    destruct (detected d =? 0); simpl; repeat split; intros;
    try reflexivity; try assumption; try contradiction; try congruence.
Qed.

(** The notification of an adopted report is the CHANGED one. *)
Lemma receive_device_adopts now addr mac st device d :
  status d <> st -> pending d = 0 ->
  existsb (is_event "CHANGED")
          (snd (receive_device now addr mac false st device d)) = true.
Proof.
  intros Hne Hp. unfold receive_device, truthy. simpl.
  destruct (Z.eqb_spec (status d) st) as [E|_]; [contradiction|]. simpl.
  destruct (Z.eqb_spec (pending d) 0) as [_|N]; [|contradiction].
  destruct (detected d =? 0); reflexivity.
Qed.

(** A syncPilot whose state equals the recorded status changes neither the
    flags nor the deadlines, and notifies nothing but a detection. *)
Lemma receive_device_same now addr mac st device d :
  status d = st ->
  let r := receive_device now addr mac false st device d in
  pending (fst r) = pending d /\ commanded (fst r) = commanded d
  /\ deadline (fst r) = deadline d
  /\ existsb is_changed (snd r) = false.
Proof.
  intros E. unfold receive_device, truthy. simpl.
  destruct (Z.eqb_spec (status d) st) as [_|N]; [|contradiction]. simpl.
  destruct (detected d =? 0); simpl; repeat split; reflexivity.
Qed.

(** ** Inbound state reports *)

(** C1, as the code has it.  A syncPilot that fits the buffer and whose
    state differs from the recorded status always becomes the new status.
    With a command pending and the state equal to the commanded one, the
    command is confirmed: [pending] is cleared, and neither CHANGED nor
    OPERATED is notified.  With no command pending, the state is adopted as
    the commanded one and a CHANGED notification is issued.  With a command
    pending and a state other than the commanded one, [commanded] and
    [pending] stay as they are and neither CHANGED nor OPERATED is
    notified. *)
Theorem syncPilot_differs now pkt mac b device d w :
  is_syncPilot pkt mac b ->
  housewiz_device_mac_search mac w = Some device ->
  0 <= device ->
  slot w device = Some d ->
  status d <> Z.b2z b ->
  exists w' o d',
    housewiz_device_receive now pkt w = Some (w', o)
    /\ slot w' device = Some d'
    /\ status d' = Z.b2z b
    /\ (pending d <> 0 -> Z.b2z b = commanded d ->
          pending d' = 0 /\ commanded d' = commanded d
          /\ existsb is_changed o = false)
    /\ (pending d = 0 ->
          commanded d' = Z.b2z b /\ pending d' = 0
          /\ existsb (is_event "CHANGED") o = true)
    /\ (pending d <> 0 -> Z.b2z b <> commanded d ->
          commanded d' = commanded d /\ pending d' = pending d
          /\ existsb is_changed o = false).
Proof.
  intros Hpkt Hsearch Hdev Hslot Hne.
  rewrite (receive_syncPilot _ _ _ _ _ Hpkt), Hsearch. simpl.
  rewrite (receive_message_found _ _ _ _ _ _ _ _ Hdev Hslot).
  eexists _, _, _. split; [reflexivity|].
  split; [eapply slot_store_eq; eassumption|].
  split; [apply receive_device_status|].
  destruct (receive_device_differs now (in_addr pkt) mac _ device d Hne)
    as (H1 & H2 & H3).
  split; [exact H1|]. split; [|exact H3].
  intros Hp. destruct (H2 Hp) as (Hc & Hq & _).
  split; [exact Hc|]. split; [exact Hq|].
  apply receive_device_adopts; assumption.
Qed.

Lemma syncPilot_differs_witness :
  exists w' o d',
    housewiz_device_receive 1001 (syncPilot "AABBCCDDEEFF" false)
      (world_of lamp_on) = Some (w', o)
    /\ slot w' 0 = Some d'
    /\ status d' = 0
    /\ commanded d' = 0
    /\ existsb (is_event "CHANGED") o = true.
Proof.
  destruct (syncPilot_differs 1001 (syncPilot "AABBCCDDEEFF" false)
              "AABBCCDDEEFF" false 0
              (default DeviceMap_zero (slot (world_of lamp_on) 0))
              (world_of lamp_on))
    as (w' & o & d' & H1 & H2 & H3 & _ & H5 & _).
  - unfold is_syncPilot. simpl. repeat split; reflexivity || lia.
  - vm_compute. reflexivity.
  - lia.
  - vm_compute. reflexivity.
  - vm_compute. discriminate.
  - exists w', o, d'. repeat split; try assumption; apply H5; reflexivity.
Defined.

(** C1 fails as stated: the lamp is on, a command "on" is pending
    until 1005, and a syncPilot reports "off" at 1001.  The status follows
    the report, but [commanded] is not adopted from it and no CHANGED
    notification is issued. *)
Lemma syncPilot_pending_not_adopted :
  exists w d w' o d',
    run_ops (lamp_on ++ [OpSet 1000 0 1 0]) world_zero = Some w
    /\ slot w 0 = Some d
    /\ status d = 1 /\ commanded d = 1 /\ pending d = 1005
    /\ housewiz_device_receive 1001 (syncPilot "aabbccddeeff" false) w
       = Some (w', o)
    /\ slot w' 0 = Some d'
    /\ status d' = 0
    /\ commanded d' = 1
    /\ pending d' = 1005
    /\ existsb is_changed o = false.
Proof.
  eexists _, _, _, _, _.
  split; [vm_compute; reflexivity|].
  split; [vm_compute; reflexivity|].
  repeat split; vm_compute; reflexivity.
Qed.

(** C6, as the code has it.  While a command is pending, a syncPilot that
    fits the buffer and reports the commanded state never issues a CHANGED
    notification.  It
    clears [pending] when the reported state differs from the recorded
    status; when the two are equal the record's [pending] stays as it is. *)
Theorem syncPilot_confirms now pkt mac b device d w :
  is_syncPilot pkt mac b ->
  housewiz_device_mac_search mac w = Some device ->
  0 <= device ->
  slot w device = Some d ->
  pending d <> 0 ->
  Z.b2z b = commanded d ->
  exists w' o d',
    housewiz_device_receive now pkt w = Some (w', o)
    /\ slot w' device = Some d'
    /\ existsb is_changed o = false
    /\ commanded d' = commanded d
    /\ (status d <> Z.b2z b -> pending d' = 0)
    /\ (status d = Z.b2z b -> pending d' = pending d).
Proof.
  intros Hpkt Hsearch Hdev Hslot Hpend Hcmd.
  rewrite (receive_syncPilot _ _ _ _ _ Hpkt), Hsearch. simpl.
  rewrite (receive_message_found _ _ _ _ _ _ _ _ Hdev Hslot).
  eexists _, _, _. split; [reflexivity|].
  split; [eapply slot_store_eq; eassumption|].
  destruct (Z.eq_dec (status d) (Z.b2z b)) as [E|N].
  - destruct (receive_device_same now (in_addr pkt) mac _ device d E)
      as (H1 & H2 & _ & H3).
    repeat split; try assumption; intros; [contradiction|assumption].
  - destruct (receive_device_differs now (in_addr pkt) mac _ device d N)
      as (H1 & _ & _).
    destruct (H1 Hpend Hcmd) as (Hp & Hc & Ho).
    repeat split; try assumption; intros; [assumption|contradiction].
Qed.

Lemma syncPilot_confirms_witness :
  exists w' o d',
    housewiz_device_receive 1001 (syncPilot "aabbccddeeff" true)
      (world_of (lamp_off ++ [OpSet 1000 0 1 0])) = Some (w', o)
    /\ slot w' 0 = Some d'
    /\ existsb is_changed o = false
    /\ pending d' = 0.
Proof.
  destruct (syncPilot_confirms 1001 (syncPilot "aabbccddeeff" true)
              "aabbccddeeff" true 0
              (default DeviceMap_zero
                 (slot (world_of (lamp_off ++ [OpSet 1000 0 1 0])) 0))
              (world_of (lamp_off ++ [OpSet 1000 0 1 0])))
    as (w' & o & d' & H1 & H2 & H3 & _ & H5 & _).
  - unfold is_syncPilot. simpl. repeat split; reflexivity || lia.
  - vm_compute. reflexivity.
  - lia.
  - vm_compute. reflexivity.
  - vm_compute. discriminate.
  - vm_compute. reflexivity.
  - exists w', o, d'. repeat split; try assumption.
    apply H5. vm_compute. discriminate.
Defined.

(** C6 fails as stated: the lamp is on and a command "on" is pending
    until 1005.  A syncPilot reporting "on" at 1001 equals both the
    commanded state and the recorded status, and [pending] is still 1005
    afterwards. *)
Lemma syncPilot_same_status_keeps_pending :
  exists w d w' o d',
    run_ops (lamp_on ++ [OpSet 1000 0 1 0]) world_zero = Some w
    /\ slot w 0 = Some d
    /\ status d = 1 /\ commanded d = 1 /\ pending d = 1005
    /\ housewiz_device_receive 1001 (syncPilot "aabbccddeeff" true) w
       = Some (w', o)
    /\ slot w' 0 = Some d'
    /\ pending d' = 1005.
Proof.
  eexists _, _, _, _, _.
  split; [vm_compute; reflexivity|].
  split; [vm_compute; reflexivity|].
  repeat split; vm_compute; reflexivity.
Qed.

(** ** Searching the registry by MAC address *)

Lemma mac_search_loop_total m n : forall i w,
  0 <= i -> i + Z.of_nat n <= Z.of_nat (length (Devices w)) ->
  exists k, mac_search_loop m i n w = Some k
            /\ (k = -1 \/ i <= k < i + Z.of_nat n).
Proof.
  induction n as [|n IH]; intros i w Hi Hn; simpl.
  - exists (-1). split; [reflexivity | left; reflexivity].
  - destruct (slot_is_Some w i) as [d Hd]; [lia|]. rewrite Hd. simpl.
    destruct (strcasecmp m (macaddress d) =? 0).
    + exists i. split; [reflexivity | right; lia].
    + destruct (IH (i + 1) w) as (k & Hk & Hr); [lia | lia |].
      exists k. split; [assumption | lia].
Qed.

Lemma mac_search_total m w :
  wf w ->
  exists k, housewiz_device_mac_search m w = Some k
            /\ (k = -1 \/ 0 <= k < DevicesCount w).
Proof.
  intros (Hc & Hs). unfold housewiz_device_mac_search.
  destruct (mac_search_loop_total m (Z.to_nat (DevicesCount w)) 0 w)
    as (k & Hk & Hr); [lia | lia |].
  exists k. split; [assumption | lia].
Qed.

Lemma mac_search_loop_lower m m' n : forall i w,
  strlower m = strlower m' ->
  mac_search_loop m i n w = mac_search_loop m' i n w.
Proof.
  induction n as [|n IH]; intros i w H; simpl; [reflexivity|].
  destruct (slot w i) as [d|]; simpl; [|reflexivity].
  rewrite (strcasecmp_lower m m' (macaddress d) (macaddress d) H eq_refl).
  rewrite (IH (i + 1) w H). reflexivity.
Qed.

(** The search reads nothing but the MAC addresses of the slots in use. *)
Lemma mac_search_loop_ext m n : forall i w w',
  (forall j, i <= j < i + Z.of_nat n ->
             macaddress <$> slot w' j = macaddress <$> slot w j) ->
  mac_search_loop m i n w' = mac_search_loop m i n w.
Proof.
  induction n as [|n IH]; intros i w w' H; simpl; [reflexivity|].
  pose proof (H i ltac:(lia)) as Hi.
  rewrite (IH (i + 1) w w') by (intros; apply H; lia).
  destruct (slot w' i) as [d'|], (slot w i) as [d|]; simpl in *;
    try discriminate; [|reflexivity].
  inversion Hi as [E]. rewrite E. reflexivity.
Qed.

Lemma mac_search_loop_miss m n : forall i w,
  0 <= i ->
  mac_search_loop m i n w = Some (-1) ->
  forall j, i <= j < i + Z.of_nat n ->
    exists d, slot w j = Some d /\ strcasecmp m (macaddress d) <> 0.
Proof.
  induction n as [|n IH]; intros i w Hi H j Hj; simpl in *; [lia|].
  destruct (slot w i) as [d|] eqn:Hd; simpl in H; [|discriminate].
  destruct (Z.eqb_spec (strcasecmp m (macaddress d)) 0) as [E|N].
  - inversion H. lia.
  - destruct (Z.eq_dec j i) as [->|Hne]; [eauto|].
    apply (IH (i + 1) w); [lia | assumption | lia].
Qed.

Lemma mac_search_loop_hit m n : forall i w,
  (forall j, i <= j < i + Z.of_nat n ->
     exists d, slot w j = Some d /\ strcasecmp m (macaddress d) <> 0) ->
  (exists d, slot w (i + Z.of_nat n) = Some d
             /\ strcasecmp m (macaddress d) = 0) ->
  mac_search_loop m i (S n) w = Some (i + Z.of_nat n).
Proof.
  induction n as [|n IH]; intros i w Hmiss (d & Hd & Hz).
  - simpl. replace (i + Z.of_nat 0) with i in * by lia.
    rewrite Hd. simpl. rewrite Hz. reflexivity.
  - destruct (Hmiss i ltac:(lia)) as (d0 & Hd0 & Hn0).
    transitivity (mac_search_loop m (i + 1) (S n) w).
    { simpl. rewrite Hd0. simpl.
      destruct (Z.eqb_spec (strcasecmp m (macaddress d0)) 0);
        [contradiction | reflexivity]. }
    rewrite (IH (i + 1) w).
    + f_equal. lia.
    + intros j Hj. apply Hmiss. lia.
    + exists d. split; [|assumption].
      rewrite <- Hd. f_equal. lia.
Qed.

(** ** Processing a decoded message *)

Lemma receive_device_macaddress now addr mac manual st device d :
  macaddress (fst (receive_device now addr mac manual st device d))
  = macaddress d.
Proof.
  unfold receive_device.
  destruct manual; simpl;
    repeat match goal with
           | |- context [if ?c then _ else _] => destruct c; simpl
           end; reflexivity.
Qed.

Lemma receive_message_full now addr mac manual st device w :
  device < 0 -> DevicesSpace w <= DevicesCount w ->
  receive_message now addr mac manual st device w = Some (w, []).
Proof.
  intros Hd Hfull. unfold receive_message, receive_known.
  destruct (Z.ltb_spec (DevicesCount w) (DevicesSpace w)); [lia|].
  rewrite andb_false_r.
  destruct (Z.leb_spec 0 device); [lia | reflexivity].
Qed.

Lemma receive_message_new now addr mac manual st device w :
  wf w -> device < 0 -> DevicesCount w < DevicesSpace w ->
  exists d w' o,
    slot w (DevicesCount w) = Some d
    /\ receive_message now addr mac manual st device w = Some (w', o)
    /\ wf w'
    /\ DevicesCount w' = DevicesCount w + 1
    /\ DevicesSpace w' = DevicesSpace w
    /\ slot w' (DevicesCount w) =
         Some (fst (receive_device now addr mac manual st (DevicesCount w)
                      (fst (announce_device now mac (DevicesCount w) d))))
    /\ (forall j, j <> DevicesCount w -> slot w' j = slot w j).
Proof.
  intros (Hc & Hs) Hd Hroom.
  destruct (slot_is_Some w (DevicesCount w)) as [d Hslot]; [lia|].
  exists d. unfold receive_message, receive_known.
  destruct (Z.ltb_spec device 0); [|lia].
  destruct (Z.ltb_spec (DevicesCount w) (DevicesSpace w)); [|lia].
  cbn [andb DevicesCount DevicesSpace set_DevicesCount set_DeviceListChanged].
  destruct (Z.leb_spec (DevicesSpace w) (DevicesCount w)); [lia|].
  destruct (Z.leb_spec 0 (DevicesCount w)); [|lia].
  set (w2 := set_DevicesCount (DevicesCount w + 1)
               (set_DeviceListChanged 1 w)).
  assert (Hslot2 : slot w2 (DevicesCount w) = Some d) by exact Hslot.
  rewrite Hslot2. step.
  destruct (announce_device now mac (DevicesCount w) d) as [da oa] eqn:Ea.
  rewrite (slot_store_eq _ _ _ da Hslot2). step.
  destruct (receive_device now addr mac manual st (DevicesCount w) da)
    as [dr or] eqn:Er.
  step. eexists _, _. split; [assumption|]. split; [reflexivity|].
  split.
  { apply wf_store, wf_store. unfold wf, w2. simpl. lia. }
  split; [reflexivity|]. split; [reflexivity|]. split.
  { apply (slot_store_eq _ _ da). apply (slot_store_eq _ _ d). exact Hslot2. }
  intros j Hj. rewrite !slot_store_ne by lia. reflexivity.
Qed.

Lemma receive_announces pkt mac :
  announces pkt mac ->
  exists manual st, forall now w,
    housewiz_device_receive now pkt w =
      (device ← housewiz_device_mac_search mac w;
       receive_message now (in_addr pkt) mac manual st device w).
Proof.
  intros [H | [b H]].
  - exists true, 0. intros. apply receive_firstBeat. assumption.
  - exists false, (Z.b2z b). intros. apply receive_syncPilot. assumption.
Qed.



(** ** The stored endpoint *)



(** ** A firstBeat *)

(** On a known device a firstBeat forces [commanded] and [status] to 1 and
    clears [pending]; the acknowledging setPilot leaves for the endpoint the
    record held before the message, and only then is the endpoint replaced
    by the sender's. *)
Lemma firstBeat_known now pkt mac device d w :
  is_firstBeat pkt mac ->
  housewiz_device_mac_search mac w = Some device ->
  0 <= device ->
  slot w device = Some d ->
  exists w' o d',
    housewiz_device_receive now pkt w = Some (w', o)
    /\ slot w' device = Some d'
    /\ commanded d' = 1 /\ status d' = 1 /\ pending d' = 0
    /\ filter (fun x => is_datagram x = true) o =
         [Sendto (ipaddress d) (SetPilot (WIZ_ID_OFFSET + device) true)]
    /\ sin_addr (ipaddress d') = sin_addr (in_addr pkt).
Proof.
  intros Hpkt Hsearch Hdev Hslot.
  rewrite (receive_firstBeat _ _ _ _ Hpkt), Hsearch. step.
  rewrite (receive_message_found _ _ _ _ _ _ _ _ Hdev Hslot).
  eexists _, _, _. split; [reflexivity|].
  split; [eapply slot_store_eq; eassumption|].
  unfold receive_device, housewiz_device_control, housewiz_device_send.
  cbn -[filter].
  destruct (truthy (detected d)); destruct (Z.eqb_spec (status d) 1);
    cbn; repeat split; try reflexivity; assumption.
Qed.

(** C7 at the spec's scenario: the registry is loaded with the one lamp,
    never heard of so far, and its firstBeat arrives from 192.168.1.50.
    [commanded] and [status] become 1 and [pending] 0 as claimed, but the
    acknowledging setPilot is sent to the all-zero address the fresh record
    holds, not to the address the datagram came from. *)
Theorem firstBeat_ack_to_unset_endpoint :
  exists w d w' d',
    run_ops startup world_zero = Some w
    /\ slot w 0 = Some d
    /\ macaddress d = "aabbccddeeff"
    /\ ipaddress d = sockaddr_zero
    /\ sin_addr (in_addr (firstBeat "aabbccddeeff")) = 3232235826
    /\ housewiz_device_receive 1000 (firstBeat "aabbccddeeff") w =
         Some (w',
               [Event "DEVICE" "lamp1" "DETECTED" "MAC ADDRESS aabbccddeeff";
                Sendto sockaddr_zero (SetPilot 12000 true);
                Event "DEVICE" "lamp1" "OPERATED" "FROM off TO on"])
    /\ slot w' 0 = Some d'
    /\ commanded d' = 1 /\ status d' = 1 /\ pending d' = 0.
Proof.
  eexists _, _, _, _.
  split; [vm_compute; reflexivity|].
  split; [vm_compute; reflexivity|].
  repeat split; vm_compute; reflexivity.
Qed.

(** ** Device indexes *)

(** An index below 0 or above [DevicesCount] is rejected: the result is 0,
    the registry is unchanged and nothing is sent or logged; the accessors
    return 0 or the null pointer. *)
Lemma out_of_range_rejected now device state pulse w :
  device < 0 \/ DevicesCount w < device ->
  housewiz_device_set now device state pulse w = Some (0, w, [])
  /\ housewiz_device_name device w = Some None
  /\ housewiz_device_commanded device w = Some 0
  /\ housewiz_device_deadline device w = Some 0
  /\ housewiz_device_get device w = Some 0
  /\ housewiz_device_failure device w = Some None.
Proof.
  intros H.
  assert (E : out_of_range w device = true).
  { unfold out_of_range. apply orb_true_iff.
    destruct H; [left | right]; apply Z.ltb_lt; assumption. }
  unfold housewiz_device_set, housewiz_device_name, housewiz_device_commanded,
    housewiz_device_deadline, housewiz_device_get, housewiz_device_failure.
  rewrite E. repeat split; reflexivity.
Qed.

(** C5 at the index [DevicesCount]: with the one lamp configured, index 1
    is not a device, yet [housewiz_device_set (1, 1, 0)] returns 1 and
    writes [commanded] and [pending] into the free slot after the lamp, and
    the accessors read that slot instead of returning their default. *)
Theorem set_accepts_index_DevicesCount :
  exists w w' d',
    run_ops startup world_zero = Some w
    /\ housewiz_device_count w = 1
    /\ housewiz_device_set 1000 1 1 0 w
       = Some (1, w', [Event "DEVICE" "" "SET" "on"])
    /\ slot w 1 = Some DeviceMap_zero
    /\ slot w' 1 = Some d'
    /\ commanded d' = 1 /\ pending d' = 1005
    /\ housewiz_device_name 1 w = Some (Some "")
    /\ housewiz_device_failure 1 w = Some (Some "silent")
    /\ housewiz_device_commanded 1 w' = Some 1.
Proof.
  eexists _, _, _.
  split; [vm_compute; reflexivity|].
  split; [vm_compute; reflexivity|].
  split; [vm_compute; reflexivity|].
  repeat split; vm_compute; reflexivity.
Qed.

(** ** Reload *)

(** C8 at a registry whose lamp was heard "on": reloading the same
    configuration gives the lamp's record, same MAC address, the status 0.
    The statuses are read from the array [calloc] has just zeroed. *)
Theorem refresh_forgets_status :
  exists w d w' o d',
    run_ops (startup ++ [OpReceive 990 (syncPilot "aabbccddeeff" true)])
      world_zero = Some w
    /\ slot w 0 = Some d
    /\ macaddress d = "aabbccddeeff" /\ status d = 1
    /\ housewiz_device_refresh "CONFIG CHANGED" config1 true w
       = Some (None, w', o)
    /\ slot w' 0 = Some d'
    /\ macaddress d' = "aabbccddeeff" /\ status d' = 0.
Proof.
  eexists _, _, _, _, _.
  split; [vm_compute; reflexivity|].
  split; [vm_compute; reflexivity|].
  split; [vm_compute; reflexivity|].
  split; [vm_compute; reflexivity|].
  split; [vm_compute; reflexivity|].
  repeat split; vm_compute; reflexivity.
Qed.

(** ** Messages that carry one MAC address *)

Lemma announce_device_macaddress now mac device d :
  macaddress (fst (announce_device now mac device d)) = strtake 15 mac.
Proof. reflexivity. Qed.

Lemma mac_search_lower m m' w :
  strlower m = strlower m' ->
  housewiz_device_mac_search m w = housewiz_device_mac_search m' w.
Proof. intros H. apply mac_search_loop_lower. assumption. Qed.

(** One message whose MAC address is [mac] up to case, [mac] fitting the
    15 characters of the record's field: the search result for [mac] stays,
    or the record is created in the next free slot and found from then on,
    or (array full) nothing changes. *)
Lemma receive_same_mac now pkt m mac w :
  wf w -> announces pkt m -> strlower m = strlower mac ->
  (String.length mac <= 15)%nat ->
  exists w' o k,
    housewiz_device_receive now pkt w = Some (w', o)
    /\ wf w'
    /\ housewiz_device_mac_search mac w = Some k
    /\ ((0 <= k /\ DevicesCount w' = DevicesCount w
         /\ housewiz_device_mac_search mac w' = Some k)
        \/ (k = -1 /\ DevicesCount w < DevicesSpace w
            /\ DevicesCount w' = DevicesCount w + 1
            /\ housewiz_device_mac_search mac w' = Some (DevicesCount w))
        \/ (k = -1 /\ DevicesSpace w <= DevicesCount w /\ w' = w)).
Proof.
  intros Hwf Hpkt Hlow Hlen.
  destruct (receive_announces pkt m Hpkt) as (manual & st & Hrecv).
  rewrite Hrecv, (mac_search_lower m mac w Hlow).
  destruct (mac_search_total mac w Hwf) as (k & Hk & Hrange).
  rewrite Hk. step.
  destruct Hrange as [-> | Hin].
  - destruct (Z.lt_ge_cases (DevicesCount w) (DevicesSpace w))
      as [Hroom | Hfull].
    + destruct (receive_message_new now (in_addr pkt) m manual st (-1) w
                  Hwf ltac:(lia) Hroom)
        as (d & w' & o & Hd & Hrun & Hwf' & Hc' & _ & Hslot' & Hother).
      exists w', o, (-1). split; [exact Hrun|]. split; [exact Hwf'|].
      split; [reflexivity|]. right. left.
      split; [reflexivity|]. split; [exact Hroom|]. split; [exact Hc'|].
      unfold housewiz_device_mac_search. rewrite Hc'.
      destruct Hwf as ((Hc0 & _) & _).
      replace (Z.to_nat (DevicesCount w + 1))
        with (S (Z.to_nat (DevicesCount w))) by lia.
      replace (Some (DevicesCount w))
        with (Some (0 + Z.of_nat (Z.to_nat (DevicesCount w))))
        by (f_equal; lia).
      apply mac_search_loop_hit.
      * intros j Hj. rewrite Hother by lia.
        apply (mac_search_loop_miss mac (Z.to_nat (DevicesCount w)) 0 w);
          [lia | exact Hk | exact Hj].
      * replace (0 + Z.of_nat (Z.to_nat (DevicesCount w)))
          with (DevicesCount w) by lia.
        eexists. split; [exact Hslot'|].
        rewrite receive_device_macaddress, announce_device_macaddress.
        rewrite strtake_all
          by (rewrite (strlower_length m mac Hlow); exact Hlen).
        rewrite (strcasecmp_lower mac m m m (eq_sym Hlow) eq_refl).
        apply strcasecmp_refl.
    + rewrite (receive_message_full now (in_addr pkt) m manual st (-1) w
                 ltac:(lia) ltac:(lia)).
      exists w, [], (-1). split; [reflexivity|]. split; [exact Hwf|].
      split; [reflexivity|]. right. right. auto.
  - destruct (slot_is_Some w k) as [d Hd]; [destruct Hwf; lia|].
    rewrite (receive_message_found _ _ _ _ _ _ _ _ (proj1 Hin) Hd).
    eexists _, _, k. split; [reflexivity|].
    split; [apply wf_store; exact Hwf|]. split; [reflexivity|]. left.
    split; [lia|]. split; [reflexivity|].
    rewrite <- Hk. apply mac_search_loop_ext. intros j Hj.
    destruct (Z.eq_dec j k) as [->|Hne].
    + rewrite (slot_store_eq _ _ _ _ Hd), Hd. simpl.
      rewrite receive_device_macaddress. reflexivity.
    + rewrite slot_store_ne by lia. reflexivity.
Qed.

Lemma run_receive_same_mac mac msgs : forall w,
  wf w -> (String.length mac <= 15)%nat ->
  Forall (fun p => exists m, announces (snd p) m
                             /\ strlower m = strlower mac) msgs ->
  exists w' k,
    run_receive msgs w = Some w'
    /\ wf w'
    /\ housewiz_device_mac_search mac w = Some k
    /\ (0 <= k -> DevicesCount w' = DevicesCount w
                  /\ housewiz_device_mac_search mac w' = Some k)
    /\ (k < 0 -> DevicesCount w < DevicesSpace w -> msgs <> [] ->
          DevicesCount w' = DevicesCount w + 1
          /\ housewiz_device_mac_search mac w' = Some (DevicesCount w))
    /\ (k < 0 -> DevicesSpace w <= DevicesCount w -> w' = w)
    /\ (msgs = [] -> w' = w).
Proof.
  induction msgs as [|[now pkt] rest IH]; intros w Hwf Hlen Hall.
  - destruct (mac_search_total mac w Hwf) as (k & Hk & _).
    exists w, k. split; [reflexivity|]. split; [exact Hwf|].
    split; [exact Hk|]. repeat split; auto; congruence.
  - inversion Hall as [|p l (m & Hpkt & Hlow) Hrest]; subst.
    destruct (receive_same_mac now pkt m mac w Hwf Hpkt Hlow Hlen)
      as (w1 & o & k & Hrun & Hwf1 & Hk & Hcase).
    destruct (IH w1 Hwf1 Hlen Hrest)
      as (w' & k1 & Hrun' & Hwf' & Hk1 & Hfound & Hnew & Hfull & Hnil).
    exists w', k. cbn [run_receive]. rewrite Hrun. step.
    split; [exact Hrun'|]. split; [exact Hwf'|]. split; [exact Hk|].
    pose proof (proj1 Hwf) as Hc.
    destruct Hcase as [(Hk0 & Hc1 & Hs1) | [(-> & Hroom & Hc1 & Hs1)
                                           | (-> & Hfull0 & ->)]].
    + rewrite Hs1 in Hk1. inversion Hk1; subst k1.
      destruct (Hfound Hk0) as (Hc' & Hs').
      repeat split; try lia; try congruence.
    + rewrite Hs1 in Hk1. inversion Hk1; subst k1.
      destruct (Hfound ltac:(lia)) as (Hc' & Hs').
      repeat split; try lia; try congruence.
    + rewrite Hk in Hk1. inversion Hk1; subst k1.
      split; [intros; lia|]. split; [intros; lia|].
      split; [|discriminate].
      intros _ _. apply Hfull; [lia | exact Hfull0].
Qed.

(** C9, for a MAC address the record's field can hold (15 characters at
    most).  Whatever the registry, any number of firstBeat and syncPilot
    messages of fewer than 256 bytes that carry the address, in any mix of upper and lower case,
    adds one record at most.  If a record matched before, none is added.
    If none matched and a slot was free, the first message creates the
    record in the next free slot, and after all the messages the search
    still resolves to that slot and the count has grown by exactly one. *)
Theorem same_mac_one_record mac msgs w :
  wf w -> cstring mac -> (String.length mac <= 15)%nat ->
  Forall (fun p => exists m, announces (snd p) m /\ cstring m
                             /\ strcasecmp m mac = 0) msgs ->
  exists w' k,
    run_receive msgs w = Some w'
    /\ housewiz_device_mac_search mac w = Some k
    /\ DevicesCount w <= DevicesCount w' <= DevicesCount w + 1
    /\ (0 <= k -> DevicesCount w' = DevicesCount w
                  /\ housewiz_device_mac_search mac w' = Some k)
    /\ (k < 0 -> DevicesCount w < DevicesSpace w -> msgs <> [] ->
          DevicesCount w' = DevicesCount w + 1
          /\ housewiz_device_mac_search mac w' = Some (DevicesCount w)).
Proof.
  intros Hwf Hmac Hlen Hall.
  assert (Hall' : Forall (fun p => exists m, announces (snd p) m
                                    /\ strlower m = strlower mac) msgs).
  { eapply Forall_impl; [exact Hall|].
    intros p (m & Hp & Hm & Hz). exists m. split; [exact Hp|].
    apply strcasecmp_zero; assumption. }
  destruct (run_receive_same_mac mac msgs w Hwf Hlen Hall')
    as (w' & k & Hrun & _ & Hk & Hfound & Hnew & Hfull & Hnil).
  exists w', k. split; [exact Hrun|]. split; [exact Hk|].
  split; [|split; assumption].
  destruct (Z.le_gt_cases 0 k) as [Hk0|Hk0].
  - destruct (Hfound Hk0). lia.
  - destruct (Z.lt_ge_cases (DevicesCount w) (DevicesSpace w)) as [Hr|Hf].
    + destruct msgs as [|p l].
      * rewrite (Hnil eq_refl). lia.
      * destruct (Hnew Hk0 Hr ltac:(discriminate)). lia.
    + rewrite (Hfull Hk0 Hf). lia.
Qed.

Lemma same_mac_one_record_witness :
  exists w',
    run_receive [(1000, syncPilot "A8BB50AABBCC" true);
                 (1030, firstBeat "a8bb50aabbcc");
                 (1060, syncPilot "a8bb50AABBCC" false)]
      (world_of startup) = Some w'
    /\ DevicesCount w' = 2
    /\ housewiz_device_mac_search "a8bb50aabbcc" w' = Some 1.
Proof.
  destruct (same_mac_one_record "a8bb50aabbcc"
              [(1000, syncPilot "A8BB50AABBCC" true);
               (1030, firstBeat "a8bb50aabbcc");
               (1060, syncPilot "a8bb50AABBCC" false)]
              (world_of startup))
    as (w' & k & Hrun & Hk & _ & _ & Hnew).
  - vm_compute. split; [split; discriminate | reflexivity].
  - simpl. repeat split; discriminate.
  - simpl. lia.
  - repeat constructor; simpl.
    + exists "A8BB50AABBCC". split; [right; exists true|];
        repeat split; try reflexivity; try discriminate; lia.
    + exists "a8bb50aabbcc". split; [left|];
        repeat split; try reflexivity; try discriminate; lia.
    + exists "a8bb50AABBCC". split; [right; exists false|];
        repeat split; try reflexivity; try discriminate; lia.
  - assert (E : k = -1) by (vm_compute in Hk; congruence). subst k.
    destruct Hnew as (Hc & Hs);
      [lia | vm_compute; reflexivity | discriminate |].
    exists w'. split; [exact Hrun|]. split; [exact Hc | exact Hs].
Defined.

(** C9 fails as stated: a MAC address written with colons has 17
    characters, the record keeps its first 15, and the second message with
    the very same address finds no record and creates another one. *)
Lemma long_mac_duplicates :
  exists w w' d1 d2,
    run_ops startup world_zero = Some w
    /\ DevicesCount w = 1
    /\ run_receive [(1000, syncPilot "AA:BB:CC:DD:EE:FF" true);
                    (1001, syncPilot "AA:BB:CC:DD:EE:FF" true)] w = Some w'
    /\ DevicesCount w' = 3
    /\ slot w' 1 = Some d1 /\ macaddress d1 = "AA:BB:CC:DD:EE:"
    /\ slot w' 2 = Some d2 /\ macaddress d2 = "AA:BB:CC:DD:EE:".
Proof.
  eexists _, _, _, _.
  split; [vm_compute; reflexivity|].
  split; [vm_compute; reflexivity|].
  split; [vm_compute; reflexivity|].
  repeat split; vm_compute; reflexivity.
Qed.

(** ** The periodic sweep *)







Lemma periodic_loop_spec now n : forall i w,
  0 <= i -> i + Z.of_nat n <= Z.of_nat (length (Devices w)) ->
  exists l o,
    periodic_loop now i n w = Some (set_Devices l w, o)
    /\ length l = length (Devices w)
    /\ forall j d, slot w j = Some d ->
         slot (set_Devices l w) j =
           Some (if (i <=? j) && (j <? i + Z.of_nat n)
                 then fst (periodic_device (Networks w) now j d) else d).
Proof.
  induction n as [|n IH]; intros i w Hi Hn.
  - exists (Devices w), []. split; [destruct w; reflexivity|].
    split; [reflexivity|]. intros j d Hj.
    replace (set_Devices (Devices w) w) with w by (destruct w; reflexivity).
    rewrite Hj. f_equal.
    destruct (Z.leb_spec i j), (Z.ltb_spec j (i + Z.of_nat 0));
      try reflexivity; lia.
  - destruct (slot_is_Some w i) as [d Hd]; [lia|].
    cbn [periodic_loop]. rewrite Hd. step.
    destruct (periodic_device (Networks w) now i d) as [d' o] eqn:Ed.
    destruct (IH (i + 1) (store i d' w)) as (l & o' & Hrun & Hlen & Hslots);
      [lia | rewrite store_length; lia |].
    rewrite Hrun. step. exists l, (o ++ o').
    split; [reflexivity|]. split; [rewrite Hlen; apply store_length|].
    intros j dj Hj.
    change (set_Devices l w) with (set_Devices l (store i d' w)).
    destruct (Z.eq_dec j i) as [->|Hne].
    + rewrite (Hslots i d') by (eapply slot_store_eq; eassumption).
      rewrite Hd in Hj. inversion Hj; subst dj.
      change (Networks (store i d' w)) with (Networks w).
      destruct (Z.leb_spec (i + 1) i); [lia|].
      destruct (Z.leb_spec i i); [|lia].
      destruct (Z.ltb_spec i (i + Z.of_nat (S n))); [|lia].
      simpl. rewrite Ed. reflexivity.
    + rewrite (Hslots j dj) by (rewrite slot_store_ne by lia; exact Hj).
      change (Networks (store i d' w)) with (Networks w). f_equal.
      destruct (Z.leb_spec (i + 1) j), (Z.leb_spec i j),
        (Z.ltb_spec j (i + 1 + Z.of_nat n)),
        (Z.ltb_spec j (i + Z.of_nat (S n))); try reflexivity; lia.
Qed.

(** One call of [housewiz_device_periodic] on a well-formed registry: it
    returns, and every record in use went through [periodic_device] if the
    call swept, and is untouched otherwise. *)
Lemma periodic_spec scan now w :
  wf w ->
  exists w' o,
    housewiz_device_periodic scan now w = Some (w', o)
    /\ wf w'
    /\ DevicesCount w' = DevicesCount w
    /\ LastRetry w' = (if sweeps now w then now else LastRetry w)
    /\ forall j d, slot w j = Some d ->
         slot w' j =
           Some (if sweeps now w && (0 <=? j) && (j <? DevicesCount w)
                 then fst (periodic_device (Networks w') now j d) else d).
Proof.
  intros ((Hc0 & Hc1) & Hs). unfold housewiz_device_periodic, sweeps.
  set (w1 := if LastSense w + 60 <=? now
             then set_LastSense now (set_Networks scan w) else w).
  assert (E1 : Devices w1 = Devices w /\ DevicesCount w1 = DevicesCount w
               /\ DevicesSpace w1 = DevicesSpace w
               /\ LastRetry w1 = LastRetry w).
  { unfold w1. destruct (LastSense w + 60 <=? now); simpl; auto. }
  destruct E1 as (Ed & Ec & Esp & Er).
  assert (Hslot1 : forall j, slot w1 j = slot w j).
  { intros j. unfold slot. rewrite Ed. reflexivity. }
  replace (if LastSense w + 60 <=? now
           then (set_LastSense now (set_Networks scan w),
                 housewiz_device_sense scan WizBroadcast 1)
           else (w, []))
    with (w1, if LastSense w + 60 <=? now
              then housewiz_device_sense scan WizBroadcast 1 else [])
    by (unfold w1; destruct (LastSense w + 60 <=? now); reflexivity).
  cbv iota beta. rewrite Er.
  destruct (Z.ltb_spec now (LastRetry w + 5)) as [Hgate|Hgate];
    destruct (Z.leb_spec (LastRetry w + 5) now) as [Hsw|Hsw]; try lia.
  - eexists _, _. split; [reflexivity|].
    split; [unfold wf; rewrite Ed, Ec, Esp; lia|].
    split; [exact Ec|]. split; [exact Er|].
    intros j d Hj. rewrite Hslot1. exact Hj.
  - destruct (periodic_loop_spec now (Z.to_nat (DevicesCount w1)) 0
                (set_LastRetry now w1))
      as (l & o & Hrun & Hlen & Hslots);
      [lia | simpl; rewrite Ed, Ec; lia |].
    change (DevicesCount (set_LastRetry now w1)) with (DevicesCount w1).
    rewrite Hrun. step. eexists _, _. split; [reflexivity|].
    split; [unfold wf; simpl; rewrite Hlen; simpl; rewrite Ed, Ec, Esp; lia|].
    split; [exact Ec|]. split; [reflexivity|].
    intros j d Hj. rewrite (Hslots j d) by (rewrite <- Hj; apply Hslot1).
    f_equal. rewrite Ec. simpl.
    replace (Z.of_nat (Z.to_nat (DevicesCount w))) with (DevicesCount w)
      by lia.
    reflexivity.
Qed.

(** ** Commands *)

Lemma set_in_range now device state pulse w d :
  0 <= device <= DevicesCount w ->
  slot w device = Some d ->
  housewiz_device_set now device state pulse w =
    Some (1, store device (fst (set_device now device state pulse d)) w,
          snd (set_device now device state pulse d)).
Proof.
  intros Hr Hd. unfold housewiz_device_set, out_of_range.
  destruct (Z.ltb_spec device 0); [lia|].
  destruct (Z.ltb_spec (DevicesCount w) device); [lia|].
  cbn [orb]. rewrite Hd. step.
  destruct (set_device now device state pulse d). reflexivity.
Qed.

Lemma set_device_fields now device state pulse d :
  let r := fst (set_device now device state pulse d) in
  commanded r = state /\ pending r = now + 5
  /\ deadline r = (if 0 <? pulse then now + pulse else 0)
  /\ status r = status d /\ detected r = detected d.
Proof.
  unfold set_device. destruct (0 <? pulse); simpl; repeat split; reflexivity.
Qed.



Section RetryBound.
Variable scan : Z -> list NetworkMap.
Variables t0 device state s0 det : Z.


End RetryBound.




(** ** Pulses *)

Section Pulse.
Variable scan : Z -> list NetworkMap.
Variables t0 device det : Z.
Hypothesis quiet : det <= 0 \/ t0 - 90 <= det.

End Pulse.




(** ** The pulse invariant *)
























(** The other way out of the invariant: during a confirmed pulse someone
    switches the lamp off, and the syncPilot that reports it is adopted as
    the commanded state while the deadline stays. *)
Example report_off_during_pulse :
  exists w d,
    run_ops (lamp_off ++ [OpSet 1000 0 1 60;
                          OpReceive 1001 (syncPilot "aabbccddeeff" true);
                          OpReceive 1020 (syncPilot "aabbccddeeff" false)])
      world_zero = Some w
    /\ slot w 0 = Some d
    /\ deadline d = 1060
    /\ commanded d = 0.
Proof.
  eexists _, _.
  split; [vm_compute; reflexivity|].
  split; [vm_compute; reflexivity|].
  split; reflexivity.
Qed.

(** The pulse of C3 second by second on the lamp that is on: the sweeps run
    at 1004, 1009 and 1014, and the commanded state falls to 0 at 1014, the
    first of them at or after 1010. *)
Example pulse_second_by_second :
  exists w1 o1 w2,
    housewiz_device_set 1000 0 1 10 (world_of lamp_on) = Some (1, w1, o1)
    /\ run_periodic no_scan (seconds 1000 14) w1
       = Some (w2, [1004; 1009; 1014])
    /\ map (fun n => commanded_after no_scan (seconds 1000 n) 0 w1)
           (seq 9 6)
       = [Some 1; Some 1; Some 1; Some 1; Some 1; Some 0].
Proof.
  eexists _, _, _.
  split; [vm_compute; reflexivity|].
  split; vm_compute; reflexivity.
Qed.

(** * More properties of the module *)

(** ** Accesses stay inside the array *)

Lemma receive_message_returns now addr mac manual st device w :
  wf w ->
  device = -1 \/ 0 <= device < DevicesCount w ->
  exists w' o,
    receive_message now addr mac manual st device w = Some (w', o)
    /\ wf w'.
Proof.
  intros Hwf [-> | Hin].
  - destruct (Z.lt_ge_cases (DevicesCount w) (DevicesSpace w)) as [Hr | Hf].
    + destruct (receive_message_new now addr mac manual st (-1) w Hwf
                  ltac:(lia) Hr)
        as (d & w' & o & _ & Hrun & Hwf' & _).
      eauto.
    + rewrite (receive_message_full now addr mac manual st (-1) w
                 ltac:(lia) Hf).
      eauto.
  - destruct (slot_is_Some w device) as [d Hd]; [destruct Hwf; lia|].
    rewrite (receive_message_found _ _ _ _ _ _ _ _ (proj1 Hin) Hd).
    eexists _, _. split; [reflexivity | apply wf_store; exact Hwf].
Qed.

Lemma receive_overruns now pkt w :
  sizeof_data <= in_size pkt ->
  housewiz_device_receive now pkt w = None.
Proof.
  intros Hsz. unfold housewiz_device_receive.
  destruct (Z.ltb_spec 0 (in_size pkt)); [|unfold sizeof_data in Hsz; lia].
  destruct (Z.leb_spec sizeof_data (in_size pkt)); [reflexivity | lia].
Qed.

Lemma receive_returns now pkt w :
  wf w ->
  in_size pkt < sizeof_data ->
  exists w' o, housewiz_device_receive now pkt w = Some (w', o) /\ wf w'.
Proof.
  intros Hwf Hsz. unfold housewiz_device_receive.
  destruct (0 <? in_size pkt); [|eauto].
  destruct (Z.leb_spec sizeof_data (in_size pkt)); [lia|].
  destruct (in_error pkt); [eauto|].
  destruct (in_method pkt) as [[method| |]|]; eauto.
  destruct (negb (String.eqb method "firstBeat")
            && negb (String.eqb method "syncPilot")); [eauto|].
  destruct (in_mac pkt) as [[mac| |]|]; eauto.
  destruct (mac_search_total mac w Hwf) as (k & Hk & Hrange).
  rewrite Hk. step.
  destruct (String.eqb method "firstBeat").
  - apply receive_message_returns; assumption.
  - destruct (in_state pkt) as [[s|b|]|]; eauto.
    apply receive_message_returns; assumption.
Qed.

Lemma clear_loop_spec n : forall i w,
  0 <= i -> i + Z.of_nat n <= Z.of_nat (length (Devices w)) ->
  exists l,
    clear_loop i n w = Some (set_Devices l w)
    /\ length l = length (Devices w).
Proof.
  induction n as [|n IH]; intros i w Hi Hn.
  - exists (Devices w). split; [destruct w; reflexivity | reflexivity].
  - destruct (slot_is_Some w i) as [d Hd]; [lia|].
    cbn [clear_loop]. rewrite Hd. step.
    destruct (IH (i + 1) (store i (clear_device d) w)) as (l & Hrun & Hlen);
      [lia | rewrite store_length; lia |].
    exists l. split; [exact Hrun | rewrite Hlen; apply store_length].
Qed.

Lemma insert_middle (pre : list DeviceMap) x y l :
  <[length pre := x]> (pre ++ y :: l) = pre ++ x :: l.
Proof. induction pre as [|p pre IH]; simpl; [reflexivity | f_equal; exact IH]. Qed.

Lemma lookup_middle (pre : list DeviceMap) y l :
  (pre ++ y :: l) !! length pre = Some y.
Proof. induction pre as [|p pre IH]; simpl; [reflexivity | exact IH]. Qed.

(** The second loop of [housewiz_device_refresh] on zeroed slots: slot by
    slot, what [loaded] makes of the configuration entry. *)
Lemma load_loop_zeroed entries : forall pre k w,
  Devices w = pre ++ replicate (length entries + k) DeviceMap_zero ->
  load_loop (Z.of_nat (length pre)) entries w =
    Some (set_Devices
            (pre ++ map loaded entries ++ replicate k DeviceMap_zero) w).
Proof.
  induction entries as [|e rest IH]; intros pre k w Hw.
  - simpl in *. rewrite <- Hw. destruct w; reflexivity.
  - assert (Hslot : slot w (Z.of_nat (length pre)) = Some DeviceMap_zero).
    { unfold slot. destruct (Z.ltb_spec (Z.of_nat (length pre)) 0); [lia|].
      rewrite Nat2Z.id, Hw. apply lookup_middle. }
    replace (pre ++ map loaded (e :: rest) ++ replicate k DeviceMap_zero)
      with ((pre ++ [loaded e]) ++ map loaded rest
              ++ replicate k DeviceMap_zero)
      by (rewrite <- app_assoc; reflexivity).
    replace (Z.of_nat (length pre) + 1)
      with (Z.of_nat (length (pre ++ [loaded e])))
      by (rewrite length_app; simpl; lia).
    destruct e as [c|]; cbn [load_loop].
    + rewrite Hslot. step.
      replace (Z.of_nat (length pre) + 1)
        with (Z.of_nat (length (pre ++ [loaded (Some c)])))
        by (rewrite length_app; simpl; lia).
      rewrite (IH (pre ++ [loaded (Some c)]) k
                 (store (Z.of_nat (length pre))
                    (load_device c DeviceMap_zero) w)).
      * reflexivity.
      * unfold store. simpl. rewrite Nat2Z.id, Hw. simpl.
        rewrite insert_middle, <- app_assoc. reflexivity.
    + replace (Z.of_nat (length pre) + 1)
        with (Z.of_nat (length (pre ++ [loaded None])))
        by (rewrite length_app; simpl; lia).
      rewrite (IH (pre ++ [loaded None]) k w).
      * reflexivity.
      * rewrite Hw, <- app_assoc. reflexivity.
Qed.

(** A reload that finds its memory, on a well-formed registry.  [entries]
    is the list of devices the configuration holds, none when it is empty. *)
Lemma refresh_loaded reason cfg entries w :
  wf w ->
  (if 0 <? config_size cfg then config_devices cfg = Some entries
   else entries = []) ->
  exists w1,
    housewiz_device_refresh reason cfg true w =
      Some (None,
            set_Devices
              (map loaded entries ++ replicate 32 DeviceMap_zero)
              (set_DevicesSpace (Z.of_nat (length entries) + 32)
                 (set_DevicesCount (Z.of_nat (length entries))
                    (set_DevicesCount 0 w1))),
            [Event "CONFIG" "wiz" "ACTIVATING" reason])
    /\ DeviceListChanged w1 = DeviceListChanged w
    /\ Networks w1 = Networks w
    /\ LastRetry w1 = LastRetry w
    /\ LastSense w1 = LastSense w.
Proof.
  intros ((Hc0 & Hc1) & Hs) Hcfg. unfold housewiz_device_refresh.
  destruct (clear_loop_spec (Z.to_nat (DevicesCount w)) 0 w)
    as (l & Hclear & _); [lia | lia |].
  rewrite Hclear. step. exists (set_Devices l w).
  split; [|repeat split; reflexivity].
  assert (Hload : forall w0,
            load_loop 0 entries
              (set_Devices
                 (replicate (Z.to_nat (Z.of_nat (length entries) + 32))
                    DeviceMap_zero) w0)
            = Some (set_Devices
                      (map loaded entries ++ replicate 32 DeviceMap_zero)
                      w0)).
  { intros w0.
    refine (load_loop_zeroed entries [] 32
              (set_Devices
                 (replicate (Z.to_nat (Z.of_nat (length entries) + 32))
                    DeviceMap_zero) w0) _).
    simpl. f_equal. lia. }
  destruct (0 <? config_size cfg).
  - rewrite Hcfg. cbv zeta.
    cbn [DevicesCount DevicesSpace set_DevicesCount set_DevicesSpace].
    rewrite Hload. reflexivity.
  - subst entries. cbv zeta.
    cbn [DevicesCount DevicesSpace set_DevicesCount set_DevicesSpace].
    rewrite (Hload _). reflexivity.
Qed.

Lemma refresh_returns reason cfg w :
  wf w ->
  exists r w' o,
    housewiz_device_refresh reason cfg true w = Some (r, w', o) /\ wf w'.
Proof.
  intros Hwf.
  destruct (0 <? config_size cfg) eqn:Esz.
  - destruct (config_devices cfg) as [entries|] eqn:Ecfg.
    + destruct (refresh_loaded reason cfg entries w Hwf) as (w1 & Hrun & _).
      { rewrite Esz. exact Ecfg. }
      rewrite Hrun. eexists _, _, _. split; [reflexivity|].
      unfold wf.
      cbn [Devices DevicesCount DevicesSpace set_Devices set_DevicesCount
           set_DevicesSpace].
      rewrite length_app, length_map, length_replicate. lia.
    + destruct Hwf as ((Hc0 & Hc1) & Hs). unfold housewiz_device_refresh.
      destruct (clear_loop_spec (Z.to_nat (DevicesCount w)) 0 w)
        as (l & Hclear & Hlen); [lia | lia |].
      rewrite Hclear. step. rewrite Esz, Ecfg.
      eexists _, _, _. split; [reflexivity|].
      unfold wf. simpl. rewrite Hlen. lia.
  - destruct (refresh_loaded reason cfg [] w Hwf) as (w1 & Hrun & _).
    { rewrite Esz. reflexivity. }
    rewrite Hrun. eexists _, _, _. split; [reflexivity|].
    unfold wf. simpl. lia.
Qed.

Lemma set_keeps_wf now device state pulse w r w' o :
  wf w ->
  housewiz_device_set now device state pulse w = Some (r, w', o) ->
  wf w'.
Proof.
  intros Hwf. unfold housewiz_device_set.
  destruct (out_of_range w device).
  - intros E. inversion E; subst. exact Hwf.
  - destruct (slot w device) as [d|]; [|discriminate]. step.
    destruct (set_device now device state pulse d) as [d' o'].
    intros E. inversion E; subst. apply wf_store. exact Hwf.
Qed.

Lemma apply_op_wf o w w' :
  allocates o -> wf w -> apply_op o w = Some w' -> wf w'.
Proof.
  intros Ha Hwf. destruct o as [now device state pulse | now pkt
                                | scan now | reason cfg room];
    cbn [apply_op allocates] in *.
  - destruct (housewiz_device_set now device state pulse w)
      as [[[r w1] o1]|] eqn:E; [|discriminate].
    step. intros E'. inversion E'; subst.
    eapply set_keeps_wf; eassumption.
  - destruct (Z.lt_ge_cases (in_size pkt) sizeof_data) as [Hsz|Hsz];
      [|rewrite (receive_overruns now pkt w Hsz); discriminate].
    destruct (receive_returns now pkt w Hwf Hsz) as (w1 & o1 & Hrun & Hwf1).
    rewrite Hrun. step. intros E'. inversion E'; subst. exact Hwf1.
  - destruct (periodic_spec scan now w Hwf) as (w1 & o1 & Hrun & Hwf1 & _).
    rewrite Hrun. step. intros E'. inversion E'; subst. exact Hwf1.
  - subst room.
    destruct (refresh_returns reason cfg w Hwf) as (r & w1 & o1 & Hrun & Hwf1).
    rewrite Hrun. step. intros E'. inversion E'; subst. exact Hwf1.
Qed.

(** X1.  The registry reached from the initial variables by any commands,
    datagrams, periodic calls and reloads that find their memory is well
    formed: [DevicesCount] is between 0 and [DevicesSpace], and
    [DevicesSpace] slots are allocated. *)
Theorem registry_stays_well_formed ops w :
  Forall allocates ops ->
  run_ops ops world_zero = Some w ->
  wf w.
Proof.
  assert (H : forall ops w0 w, Forall allocates ops -> wf w0 ->
                run_ops ops w0 = Some w -> wf w).
  { clear. induction ops as [|o rest IH]; intros w0 w Ha Hwf Hrun.
    - inversion Hrun; subst. exact Hwf.
    - inversion Ha as [|? ? Ho Hrest]; subst. cbn [run_ops] in Hrun.
      destruct (apply_op o w0) as [w1|] eqn:E; [|discriminate].
      step in Hrun. eapply IH; [exact Hrest | | exact Hrun].
      eapply apply_op_wf; eassumption. }
  intros Ha Hrun. eapply H; [exact Ha | | exact Hrun].
  unfold wf, world_zero. simpl. lia.
Qed.

Lemma registry_stays_well_formed_witness : wf (world_of full_house).
Proof.
  apply (registry_stays_well_formed full_house).
  - unfold full_house, announce_many, startup. simpl.
    repeat (constructor; [exact I || reflexivity|]). constructor.
  - vm_compute. reflexivity.
Defined.



(** X3.  On a well-formed registry [housewiz_device_set] goes outside the
    array for exactly one call: the index [DevicesCount] when every
    allocated slot is in use.  Every other call returns. *)
Theorem set_outside_array_iff_full now device state pulse w :
  wf w ->
  (housewiz_device_set now device state pulse w = None
   <-> device = DevicesCount w /\ DevicesCount w = DevicesSpace w).
Proof.
  intros ((Hc0 & Hc1) & Hs). unfold housewiz_device_set, out_of_range.
  destruct (Z.ltb_spec device 0) as [Hneg|Hpos];
    [cbn [orb]; split; [discriminate | lia]|].
  destruct (Z.ltb_spec (DevicesCount w) device) as [Hbig|Hle];
    cbn [orb]; [split; [discriminate | lia]|].
  destruct (slot w device) as [d|] eqn:Hd.
  - pose proof (slot_Some _ _ _ Hd). step.
    destruct (set_device now device state pulse d).
    split; [discriminate | lia].
  - split; [|reflexivity]. intros _.
    destruct (Z.lt_ge_cases device (DevicesSpace w)) as [Hin|Hout]; [|lia].
    destruct (slot_is_Some w device) as [d Hd']; [lia|]. congruence.
Qed.

Lemma set_outside_array_iff_full_witness :
  housewiz_device_set 3000 33 1 0 (world_of full_house) = None.
Proof.
  apply (set_outside_array_iff_full 3000 33 1 0 (world_of full_house)).
  - vm_compute. split; [split; discriminate | reflexivity].
  - vm_compute. split; reflexivity.
Defined.

(** X4.  A datagram shorter than the 256 bytes of the buffer that is not
    a decodable firstBeat or syncPilot (an empty read, a parse error, no
    method or another one, no MAC address, a syncPilot without a boolean
    state) leaves every variable of the module as it was and sends nothing;
    at most one trace is logged. *)
Theorem undecodable_datagram_ignored now pkt w :
  wf w ->
  in_size pkt < sizeof_data ->
  (forall mac, ~ announces pkt mac) ->
  exists o,
    housewiz_device_receive now pkt w = Some (w, o)
    /\ (o = [] \/ exists text, o = [Trace "DEVICE" text]).
Proof.
  intros Hwf Hfit Hno. unfold housewiz_device_receive.
  destruct (Z.ltb_spec 0 (in_size pkt)) as [Hsz|]; [|eauto].
  destruct (Z.leb_spec sizeof_data (in_size pkt)); [lia|].
  destruct (in_error pkt) eqn:Eerr; [eauto|].
  destruct (in_method pkt) as [[method| |]|] eqn:Em; eauto.
  destruct (String.eqb_spec method "firstBeat") as [->|Hnf].
  - cbn [negb andb].
    destruct (in_mac pkt) as [[mac| |]|] eqn:Emac; eauto.
    exfalso. apply (Hno mac). left. unfold is_firstBeat. auto.
  - destruct (String.eqb_spec method "syncPilot") as [->|Hns];
      cbn [negb andb]; [|eauto].
    destruct (in_mac pkt) as [[mac| |]|] eqn:Emac; eauto.
    destruct (mac_search_total mac w Hwf) as (k & Hk & _).
    rewrite Hk. step.
    destruct (in_state pkt) as [[s|b|]|] eqn:Est; eauto.
    exfalso. apply (Hno mac). right. exists b. unfold is_syncPilot. auto.
Qed.

Lemma undecodable_datagram_ignored_witness :
  exists o,
    housewiz_device_receive 3000
      {| in_size := 40; in_addr := sender; in_data := "getPilot";
         in_error := None; in_method := Some (JString "getPilot");
         in_mac := Some (JString "aabbccddeeff"); in_state := None |}
      (world_of lamp_on) = Some (world_of lamp_on, o)
    /\ (o = [] \/ exists text, o = [Trace "DEVICE" text]).
Proof.
  apply undecodable_datagram_ignored.
  - vm_compute. split; [split; discriminate | reflexivity].
  - reflexivity.
  - intros mac [(_ & _ & H & _) | (b & _ & _ & H & _)]; discriminate.
Defined.

(** X5.  Once every allocated slot is in use, a firstBeat or syncPilot of
    fewer than 256 bytes from a MAC address no record matches is dropped without a trace: no record is
    created or changed, the changed flag is not raised, nothing is sent or
    logged. *)
Theorem unknown_device_dropped_when_full now pkt mac k w :
  wf w ->
  announces pkt mac ->
  housewiz_device_mac_search mac w = Some k ->
  k < 0 ->
  DevicesSpace w <= DevicesCount w ->
  housewiz_device_receive now pkt w = Some (w, []).
Proof.
  intros Hwf Hpkt Hk Hneg Hfull.
  destruct (receive_announces pkt mac Hpkt) as (manual & st & Hrecv).
  rewrite Hrecv, Hk. step.
  apply receive_message_full; assumption.
Qed.

Lemma unknown_device_dropped_when_full_witness :
  housewiz_device_receive 3000 (syncPilot "0123456789ab" true)
    (world_of full_house) = Some (world_of full_house, []).
Proof.
  apply (unknown_device_dropped_when_full 3000 _ "0123456789ab" (-1)).
  - vm_compute. split; [split; discriminate | reflexivity].
  - right. exists true. unfold is_syncPilot. simpl.
    repeat split; reflexivity || lia.
  - vm_compute. reflexivity.
  - lia.
  - vm_compute. discriminate.
Defined.

(** X23.  On a well-formed registry [housewiz_device_receive] leaves its
    memory for exactly one kind of datagram: one that fills the 256 bytes
    of [data], after which the terminator is written at [data[256]].  Every
    shorter datagram, and a failed or empty read, is handled within
    bounds. *)
Theorem receive_overruns_iff_full_datagram now pkt w :
  wf w ->
  (housewiz_device_receive now pkt w = None <-> sizeof_data <= in_size pkt).
Proof.
  intros Hwf. split.
  - intros Hnone.
    destruct (Z.lt_ge_cases (in_size pkt) sizeof_data) as [Hsz|Hsz];
      [|exact Hsz].
    destruct (receive_returns now pkt w Hwf Hsz) as (w' & o & Hrun & _).
    congruence.
  - apply receive_overruns.
Qed.

Lemma receive_overruns_iff_full_datagram_witness :
  housewiz_device_receive 3000
    {| in_size := 256; in_addr := sender;
       in_data := "syncPilot";
       in_error := None; in_method := Some (JString "syncPilot");
       in_mac := Some (JString "aabbccddeeff");
       in_state := Some (JBool true) |}
    (world_of lamp_on) = None.
Proof.
  apply receive_overruns_iff_full_datagram.
  - vm_compute. split; [split; discriminate | reflexivity].
  - vm_compute. discriminate.
Defined.

(** ** Commands, once more *)

Lemma set_device_again t1 t2 device s1 s2 p1 p2 d :
  set_device t2 device s2 p2 (fst (set_device t1 device s1 p1 d))
  = set_device t2 device s2 p2 d.
Proof.
  unfold set_device, housewiz_device_control, housewiz_device_send.
  destruct (0 <? p1), (0 <? p2); reflexivity.
Qed.

Lemma store_store i d1 d2 w : store i d2 (store i d1 w) = store i d2 w.
Proof.
  unfold store, set_Devices. simpl. rewrite list_insert_insert_eq.
  reflexivity.
Qed.

(** X6.  What a command on a device in use does and leaves alone.  The
    record gets the commanded state, the deadline [now + pulse] (none
    without a pulse) and the grace window [now + 5]; its status, its
    detection time and every other record stay as they were.  One SET
    notification is logged, and one setPilot with the commanded state goes
    to the stored endpoint if the device was ever detected; nothing is sent
    to a device that is not detected. *)
Theorem set_effect now device state pulse d w :
  0 <= device < DevicesCount w ->
  slot w device = Some d ->
  exists w' text d',
    housewiz_device_set now device state pulse w =
      Some (1, w',
            Event "DEVICE" (name d) "SET" text
            :: (if truthy (detected d)
                then [Sendto (ipaddress d)
                        (SetPilot (WIZ_ID_OFFSET + device) (truthy state))]
                else []))
    /\ slot w' device = Some d'
    /\ housewiz_device_commanded device w' = Some state
    /\ housewiz_device_deadline device w'
       = Some (if 0 <? pulse then now + pulse else 0)
    /\ pending d' = now + 5
    /\ housewiz_device_get device w' = Some (status d)
    /\ detected d' = detected d
    /\ DevicesCount w' = DevicesCount w
    /\ (forall j, j <> device -> slot w' j = slot w j).
Proof.
  intros Hdev Hslot.
  rewrite (set_in_range now device state pulse w d ltac:(lia) Hslot).
  destruct (set_device_fields now device state pulse d)
    as (F1 & F2 & F3 & F4 & F5).
  set (r := fst (set_device now device state pulse d)) in *.
  assert (Hr : slot (store device r w) device = Some r)
    by (eapply slot_store_eq; exact Hslot).
  assert (Hrange : out_of_range (store device r w) device = false).
  { unfold out_of_range. change (DevicesCount (store device r w))
      with (DevicesCount w).
    destruct (Z.ltb_spec device 0), (Z.ltb_spec (DevicesCount w) device);
      try reflexivity; lia. }
  exists (store device r w),
    ((if truthy state then "on" else "off") +:+
     (if 0 <? pulse then " FOR " +:+ decimal pulse +:+ " SECONDS"
      else EmptyString)), r.
  split.
  { f_equal. f_equal. unfold set_device, housewiz_device_control,
      housewiz_device_send.
    destruct (0 <? pulse); simpl;
      destruct (truthy (detected d)); destruct (truthy state); reflexivity. }
  split; [exact Hr|].
  unfold housewiz_device_commanded, housewiz_device_deadline,
    housewiz_device_get.
  rewrite Hrange, Hr. step. rewrite F1, F3, F4.
  repeat split; try assumption; try reflexivity.
  intros j Hj. apply slot_store_ne; lia.
Qed.

Lemma set_effect_witness :
  exists w' text d',
    housewiz_device_set 1000 0 1 0 (world_of startup) =
      Some (1, w', [Event "DEVICE" "lamp1" "SET" text])
    /\ slot w' 0 = Some d'
    /\ housewiz_device_commanded 0 w' = Some 1
    /\ pending d' = 1005.
Proof.
  destruct (set_effect 1000 0 1 0
              (default DeviceMap_zero (slot (world_of startup) 0))
              (world_of startup))
    as (w' & text & d' & H1 & H2 & H3 & _ & H5 & _).
  - vm_compute. split; [discriminate | reflexivity].
  - vm_compute. reflexivity.
  - exists w', text, d'. repeat split; assumption.
Defined.

(** X7.  A command supersedes the one before it: two commands in a row on
    the same device leave the module, and send and log, exactly what the
    second one alone would have. *)
Theorem set_supersedes t1 t2 device s1 s2 p1 p2 w :
  wf w ->
  0 <= device < DevicesCount w ->
  exists w1 o1 w2 o2,
    housewiz_device_set t1 device s1 p1 w = Some (1, w1, o1)
    /\ housewiz_device_set t2 device s2 p2 w1 = Some (1, w2, o2)
    /\ housewiz_device_set t2 device s2 p2 w = Some (1, w2, o2).
Proof.
  intros Hwf Hdev.
  destruct (slot_is_Some w device) as [d Hd]; [destruct Hwf; lia|].
  rewrite (set_in_range t1 device s1 p1 w d ltac:(lia) Hd).
  rewrite (set_in_range t2 device s2 p2 w d ltac:(lia) Hd).
  eexists _, _, _, _. split; [reflexivity|].
  set (r1 := fst (set_device t1 device s1 p1 d)).
  assert (Hdev1 : 0 <= device <= DevicesCount (store device r1 w))
    by (unfold store; simpl; lia).
  rewrite (set_in_range t2 device s2 p2 _ _ Hdev1
             (slot_store_eq _ _ _ r1 Hd)).
  unfold r1. rewrite set_device_again, store_store. split; reflexivity.
Qed.

Lemma set_supersedes_witness :
  exists w1 o1 w2 o2,
    housewiz_device_set 1000 0 1 60 (world_of lamp_on) = Some (1, w1, o1)
    /\ housewiz_device_set 1002 0 0 0 w1 = Some (1, w2, o2)
    /\ housewiz_device_set 1002 0 0 0 (world_of lamp_on) = Some (1, w2, o2).
Proof.
  apply set_supersedes.
  - vm_compute. split; [split; discriminate | reflexivity].
  - vm_compute. split; [discriminate | reflexivity].
Defined.

(** ** Detection and self-announcement *)

Lemma receive_device_kept now addr mac manual st device d :
  let r := fst (receive_device now addr mac manual st device d) in
  name r = name d /\ description r = description d
  /\ last_sense r = last_sense d /\ detected r = now
  /\ deadline r = deadline d.
Proof.
  unfold receive_device.
  destruct manual; simpl;
    repeat match goal with
           | |- context [if ?c then _ else _] => destruct c; simpl
           end; repeat split; reflexivity.
Qed.

Lemma receive_device_events now addr mac manual st device d :
  let o := snd (receive_device now addr mac manual st device d) in
  existsb (is_event "DETECTED") o = negb (truthy (detected d))
  /\ existsb (is_event "ADDED") o = false.
Proof.
  unfold receive_device, housewiz_device_control, housewiz_device_send.
  destruct manual; simpl;
    repeat match goal with
           | |- context [if ?c then _ else _] => destruct c; simpl
           end; split; reflexivity.
Qed.

Lemma receive_message_new_eq now addr mac manual st device w d :
  device < 0 -> DevicesCount w < DevicesSpace w ->
  slot w (DevicesCount w) = Some d ->
  receive_message now addr mac manual st device w =
    Some (store (DevicesCount w)
            (fst (receive_device now addr mac manual st (DevicesCount w)
                    (fst (announce_device now mac (DevicesCount w) d))))
            (set_DevicesCount (DevicesCount w + 1)
               (set_DeviceListChanged 1 w)),
          snd (announce_device now mac (DevicesCount w) d)
          ++ snd (receive_device now addr mac manual st (DevicesCount w)
                    (fst (announce_device now mac (DevicesCount w) d)))).
Proof.
  intros Hd Hroom Hslot.
  pose proof (slot_Some _ _ _ Hslot) as Hc.
  unfold receive_message, receive_known.
  destruct (Z.ltb_spec device 0); [|lia].
  destruct (Z.ltb_spec (DevicesCount w) (DevicesSpace w)); [|lia].
  cbn [andb DevicesCount DevicesSpace set_DevicesCount set_DeviceListChanged].
  destruct (Z.leb_spec (DevicesSpace w) (DevicesCount w)); [lia|].
  destruct (Z.leb_spec 0 (DevicesCount w)); [|lia].
  set (w2 := set_DevicesCount (DevicesCount w + 1)
               (set_DeviceListChanged 1 w)).
  assert (Hslot2 : slot w2 (DevicesCount w) = Some d) by exact Hslot.
  rewrite Hslot2. step.
  destruct (announce_device now mac (DevicesCount w) d) as [da oa].
  rewrite (slot_store_eq _ _ _ da Hslot2). step.
  destruct (receive_device now addr mac manual st (DevicesCount w) da)
    as [dr or].
  step. rewrite store_store. reflexivity.
Qed.

(** X8.  A firstBeat or syncPilot of fewer than 256 bytes from a MAC
    address that no record matches, received while a slot is free and the
    clock is not 0, creates the record in the next free slot:
    named wiz followed by its rank, described as autogenerated, with the
    first 15 characters of the MAC address, detected now and due for a
    probe at the next sweep.  An ADDED notification is logged and no
    DETECTED one, the other records stay as they were, and
    [housewiz_device_changed] returns 1 on its next call and 0 on the one
    after. *)
Theorem announcement_creates_record now pkt mac k w :
  wf w ->
  announces pkt mac ->
  housewiz_device_mac_search mac w = Some k ->
  k < 0 ->
  DevicesCount w < DevicesSpace w ->
  now <> 0 ->
  exists w' o d',
    housewiz_device_receive now pkt w = Some (w', o)
    /\ housewiz_device_count w' = DevicesCount w + 1
    /\ slot w' (DevicesCount w) = Some d'
    /\ name d' = strtake 31 ("wiz" +:+ decimal (DevicesCount w + 1))
    /\ macaddress d' = strtake 15 mac
    /\ description d' = "autogenerated"
    /\ detected d' = now
    /\ last_sense d' = 0
    /\ existsb (is_event "ADDED") o = true
    /\ existsb (is_event "DETECTED") o = false
    /\ (forall j, j <> DevicesCount w -> slot w' j = slot w j)
    /\ fst (housewiz_device_changed w') = 1
    /\ fst (housewiz_device_changed (snd (housewiz_device_changed w'))) = 0.
Proof.
  intros Hwf Hpkt Hk Hneg Hroom Hnow.
  destruct (receive_announces pkt mac Hpkt) as (manual & st & Hrecv).
  rewrite Hrecv, Hk. step.
  destruct (slot_is_Some w (DevicesCount w)) as [d Hd];
    [destruct Hwf; lia|].
  rewrite (receive_message_new_eq _ _ _ _ _ _ _ _ Hneg Hroom Hd).
  set (da := fst (announce_device now mac (DevicesCount w) d)).
  destruct (receive_device_kept now (in_addr pkt) mac manual st
              (DevicesCount w) da) as (K1 & K2 & K3 & K4 & _).
  destruct (receive_device_events now (in_addr pkt) mac manual st
              (DevicesCount w) da) as (E1 & E2).
  eexists _, _, _. split; [reflexivity|].
  split; [reflexivity|].
  split; [eapply slot_store_eq; exact Hd|].
  rewrite K1, K2, K3, K4, receive_device_macaddress.
  split; [reflexivity|]. split; [reflexivity|]. split; [reflexivity|].
  split; [reflexivity|]. split; [reflexivity|].
  split; [rewrite existsb_app; reflexivity|].
  split.
  { rewrite existsb_app, E1. change (detected da) with now.
    unfold truthy. destruct (Z.eqb_spec now 0); [contradiction|].
    reflexivity. }
  split.
  { intros j Hj. rewrite slot_store_ne by (destruct Hwf; lia).
    reflexivity. }
  split; reflexivity.
Qed.

Lemma announcement_creates_record_witness :
  exists w' o d',
    housewiz_device_receive 1000 (firstBeat "A8BB50AABBCC")
      (world_of startup) = Some (w', o)
    /\ housewiz_device_count w' = 2
    /\ slot w' 1 = Some d'
    /\ name d' = "wiz2"
    /\ macaddress d' = "A8BB50AABBCC".
Proof.
  destruct (announcement_creates_record 1000 (firstBeat "A8BB50AABBCC")
              "A8BB50AABBCC" (-1) (world_of startup))
    as (w' & o & d' & H1 & H2 & H3 & H4 & H5 & _).
  - vm_compute. split; [split; discriminate | reflexivity].
  - left. unfold is_firstBeat. simpl. repeat split; reflexivity || lia.
  - vm_compute. reflexivity.
  - lia.
  - vm_compute. reflexivity.
  - lia.
  - exists w', o, d'. repeat split; assumption.
Defined.

(** X9.  A firstBeat or syncPilot of fewer than 256 bytes for a record the
    search finds, received while the clock is not 0, stamps the record as
    detected now and logs DETECTED exactly when the record was not
    detected before.  The record keeps its name, MAC address, description,
    probe time and deadline, no other record and no counter or flag of the
    module changes, and [housewiz_device_failure] no longer reports the
    device as silent. *)
Theorem message_marks_detected now pkt mac k d w :
  announces pkt mac ->
  housewiz_device_mac_search mac w = Some k ->
  0 <= k < DevicesCount w ->
  slot w k = Some d ->
  now <> 0 ->
  exists w' o d',
    housewiz_device_receive now pkt w = Some (w', o)
    /\ slot w' k = Some d'
    /\ detected d' = now
    /\ existsb (is_event "DETECTED") o = negb (truthy (detected d))
    /\ housewiz_device_failure k w' = Some None
    /\ name d' = name d /\ macaddress d' = macaddress d
    /\ description d' = description d /\ last_sense d' = last_sense d
    /\ deadline d' = deadline d
    /\ (forall j, j <> k -> slot w' j = slot w j)
    /\ DevicesCount w' = DevicesCount w
    /\ DeviceListChanged w' = DeviceListChanged w.
Proof.
  intros Hpkt Hk Hin Hd Hnow.
  destruct (receive_announces pkt mac Hpkt) as (manual & st & Hrecv).
  rewrite Hrecv, Hk. step.
  rewrite (receive_message_found _ _ _ _ _ _ _ _ (proj1 Hin) Hd).
  destruct (receive_device_kept now (in_addr pkt) mac manual st k d)
    as (K1 & K2 & K3 & K4 & K5).
  destruct (receive_device_events now (in_addr pkt) mac manual st k d)
    as (E1 & _).
  set (r := fst (receive_device now (in_addr pkt) mac manual st k d)) in *.
  assert (Hr : slot (store k r w) k = Some r)
    by (eapply slot_store_eq; exact Hd).
  eexists _, _, r. split; [reflexivity|]. split; [exact Hr|].
  split; [exact K4|]. split; [exact E1|].
  split.
  { unfold housewiz_device_failure, out_of_range.
    change (DevicesCount (store k r w)) with (DevicesCount w).
    destruct (Z.ltb_spec k 0); [lia|].
    destruct (Z.ltb_spec (DevicesCount w) k); [lia|].
    cbn [orb]. rewrite Hr. step. rewrite K4. unfold truthy.
    destruct (Z.eqb_spec now 0); [contradiction | reflexivity]. }
  split; [exact K1|].
  split; [apply receive_device_macaddress|].
  split; [exact K2|]. split; [exact K3|]. split; [exact K5|].
  split; [intros j Hj; apply slot_store_ne; lia|].
  split; reflexivity.
Qed.

Lemma message_marks_detected_witness :
  exists w' o d',
    housewiz_device_receive 1000 (syncPilot "AABBCCDDEEFF" false)
      (world_of startup) = Some (w', o)
    /\ slot w' 0 = Some d'
    /\ detected d' = 1000
    /\ existsb (is_event "DETECTED") o = true
    /\ housewiz_device_failure 0 w' = Some None.
Proof.
  destruct (message_marks_detected 1000 (syncPilot "AABBCCDDEEFF" false)
              "AABBCCDDEEFF" 0
              (default DeviceMap_zero (slot (world_of startup) 0))
              (world_of startup))
    as (w' & o & d' & H1 & H2 & H3 & H4 & H5 & _).
  - right. exists false. unfold is_syncPilot. simpl.
    repeat split; reflexivity || lia.
  - vm_compute. reflexivity.
  - vm_compute. split; [discriminate | reflexivity].
  - vm_compute. reflexivity.
  - lia.
  - exists w', o, d'. repeat split; assumption.
Defined.

(** ** What a periodic call sends and logs *)

Lemma periodic_loop_globals now n : forall i w w' o,
  periodic_loop now i n w = Some (w', o) ->
  w' = set_Devices (Devices w') w.
Proof.
  induction n as [|n IH]; intros i w w' o Hrun.
  - inversion Hrun; subst. destruct w'; reflexivity.
  - cbn [periodic_loop] in Hrun.
    destruct (slot w i) as [d|]; [|discriminate]. step in Hrun.
    destruct (periodic_device (Networks w) now i d) as [d' o1].
    destruct (periodic_loop now (i + 1) n (store i d' w))
      as [[w2 o2]|] eqn:Hrest; [|discriminate].
    step in Hrun. inversion Hrun; subst.
    apply IH in Hrest. rewrite Hrest. reflexivity.
Qed.

Lemma periodic_loop_outputs now n : forall i w w' o,
  0 <= i ->
  periodic_loop now i n w = Some (w', o) ->
  forall x,
    In x o <->
    exists j d, i <= j < i + Z.of_nat n /\ slot w j = Some d
                /\ In x (snd (periodic_device (Networks w) now j d)).
Proof.
  induction n as [|n IH]; intros i w w' o Hi Hrun x.
  - inversion Hrun; subst. split; [intros [] | intros (j & d & Hj & _); lia].
  - cbn [periodic_loop] in Hrun.
    destruct (slot w i) as [d|] eqn:Hd; [|discriminate]. step in Hrun.
    destruct (periodic_device (Networks w) now i d) as [d' o1] eqn:Ed.
    destruct (periodic_loop now (i + 1) n (store i d' w))
      as [[w2 o2]|] eqn:Hrest; [|discriminate].
    step in Hrun. inversion Hrun; subst.
    assert (Hi1 : 0 <= i + 1) by lia.
    rewrite in_app_iff, (IH _ _ _ _ Hi1 Hrest x).
    change (Networks (store i d' w)) with (Networks w).
    split.
    + intros [Hx | (j & dj & Hj & Hsj & Hx)].
      * exists i, d. rewrite Ed. split; [lia|]. split; assumption.
      * exists j, dj. rewrite slot_store_ne in Hsj by lia.
        split; [lia|]. split; assumption.
    + intros (j & dj & Hj & Hsj & Hx).
      destruct (Z.eq_dec j i) as [->|Hne].
      * left. rewrite Hd in Hsj. inversion Hsj; subst dj.
        rewrite Ed in Hx. exact Hx.
      * right. exists j, dj. rewrite slot_store_ne by lia.
        split; [lia|]. split; assumption.
Qed.

(** The outputs of one call: the registrations of a discovery, then what
    the sweep sends and logs for each record in use. *)
Lemma periodic_outputs scan now w w' o :
  housewiz_device_periodic scan now w = Some (w', o) ->
  forall x,
    In x o <->
    (LastSense w + 60 <= now
     /\ In x (housewiz_device_sense scan WizBroadcast 1))
    \/ (sweeps now w = true
        /\ exists j d, 0 <= j < DevicesCount w /\ slot w j = Some d
             /\ In x (snd (periodic_device (Networks w') now j d))).
Proof.
  unfold housewiz_device_periodic, sweeps.
  set (w1 := if LastSense w + 60 <=? now
             then set_LastSense now (set_Networks scan w) else w).
  set (o1 := if LastSense w + 60 <=? now
             then housewiz_device_sense scan WizBroadcast 1 else []).
  replace (if LastSense w + 60 <=? now
           then (set_LastSense now (set_Networks scan w),
                 housewiz_device_sense scan WizBroadcast 1)
           else (w, [])) with (w1, o1)
    by (unfold w1, o1; destruct (LastSense w + 60 <=? now); reflexivity).
  cbv iota beta.
  assert (E1 : Devices w1 = Devices w /\ DevicesCount w1 = DevicesCount w
               /\ LastRetry w1 = LastRetry w).
  { unfold w1. destruct (LastSense w + 60 <=? now); simpl; auto. }
  destruct E1 as (Ed & Ec & Er).
  assert (Ho1 : forall x, In x o1 <->
                  LastSense w + 60 <= now
                  /\ In x (housewiz_device_sense scan WizBroadcast 1)).
  { intros x. unfold o1.
    destruct (Z.leb_spec (LastSense w + 60) now); simpl; split;
      try tauto; try lia. }
  rewrite Er.
  destruct (Z.ltb_spec now (LastRetry w + 5)) as [Hgate|Hsw].
  - intros E x. inversion E; subst. rewrite Ho1.
    destruct (Z.leb_spec (LastRetry w + 5) now); [lia|].
    split; [tauto | intros [Hl | [Hl _]]; [exact Hl | discriminate]].
  - destruct (periodic_loop now 0 _ (set_LastRetry now w1))
      as [[w3 o3]|] eqn:Hrun; [|discriminate].
    step. intros E x. inversion E; subst.
    pose proof (periodic_loop_globals _ _ _ _ _ _ Hrun) as Hg.
    rewrite in_app_iff, Ho1,
      (periodic_loop_outputs _ _ _ _ _ _ (Z.le_refl 0) Hrun x).
    destruct (Z.leb_spec (LastRetry w + 5) now); [|lia].
    change (Networks (set_LastRetry now w1)) with (Networks w1).
    replace (Networks w') with (Networks w1) by (rewrite Hg; reflexivity).
    change (DevicesCount (set_LastRetry now w1)) with (DevicesCount w1).
    rewrite Ec.
    assert (Hslot : forall j, slot (set_LastRetry now w1) j = slot w j).
    { intros j. unfold slot. simpl. rewrite Ed. reflexivity. }
    split.
    + intros [Hl | (j & d & Hj & Hsj & Hx)]; [left; exact Hl|].
      right. split; [reflexivity|]. exists j, d. rewrite <- Hslot.
      split; [lia|]. split; assumption.
    + intros [Hl | (_ & j & d & Hj & Hsj & Hx)]; [left; exact Hl|].
      right. exists j, d. rewrite Hslot. split; [lia|]. split; assumption.
Qed.

Lemma sense_no_setPilot nets a id x :
  In x (housewiz_device_sense nets a id) -> is_setPilot x = false.
Proof.
  unfold housewiz_device_sense, housewiz_device_send.
  induction nets as [|n nets IH]; simpl; [intros []|].
  intros [<- | H]; [reflexivity | auto].
Qed.

(** Every setPilot of a sweep is a retry. *)
Lemma periodic_device_setPilot nets now i d a id st :
  In (Sendto a (SetPilot id st)) (snd (periodic_device nets now i d)) ->
  let r := fst (periodic_device nets now i d) in
  a = ipaddress d /\ id = WIZ_ID_OFFSET + i
  /\ detected r <> 0 /\ status r <> commanded r
  /\ st = truthy (commanded r) /\ now < pending r.
Proof.
  unfold periodic_device.
  destruct (sense_step nets now i d) as [d1 o1] eqn:E1.
  destruct (silent_step now d1) as [d2 o2] eqn:E2.
  destruct (pulse_step now d2) as [d3 o3] eqn:E3.
  destruct (mismatch_step now i d3) as [d4 o4] eqn:E4.
  assert (Hip : ipaddress d3 = ipaddress d).
  { unfold sense_step in E1. unfold silent_step in E2.
    unfold pulse_step in E3.
    destruct (last_sense d + 35 <=? now); inversion E1; subst;
      destruct ((0 <? detected _) && (detected _ <? now - 100));
      inversion E2; subst;
      destruct ((0 <? deadline _) && (deadline _ <=? now));
      inversion E3; subst; reflexivity. }
  cbn [fst snd]. rewrite !in_app_iff. intros [H | [H | [H | H]]].
  - unfold sense_step in E1.
    destruct (last_sense d + 35 <=? now); inversion E1; subst;
      [|destruct H].
    apply sense_no_setPilot in H. discriminate.
  - unfold silent_step in E2.
    destruct ((0 <? detected d1) && (detected d1 <? now - 100));
      inversion E2; subst; [|destruct H].
    destruct H as [H|[]]. discriminate.
  - unfold pulse_step in E3.
    destruct ((0 <? deadline d2) && (deadline d2 <=? now));
      inversion E3; subst; [|destruct H].
    destruct H as [H|[]]. discriminate.
  - unfold mismatch_step, housewiz_device_control, housewiz_device_send,
      truthy in E4.
    destruct (Z.eqb_spec (status d3) (commanded d3)); cbn [negb] in E4;
      [inversion E4; subst; destruct H|].
    destruct (Z.ltb_spec now (pending d3)).
    + destruct (Z.eqb_spec (detected d3) 0); cbn [negb] in E4;
        inversion E4; subst; [destruct H|].
      destruct H as [H|[H|[]]]; [discriminate|].
      inversion H; subst. rewrite Hip. repeat split; auto.
    + inversion E4; subst.
      destruct (negb (pending d3 =? 0)); destruct H as [H|[]] || destruct H.
      discriminate.
Qed.





(** X11.  Every setPilot a periodic call sends is a retry: it goes to the
    stored endpoint of a record in use that is detected and at odds with
    its command, strictly inside the grace window, and carries the
    commanded state and the record's index plus 12000 as id.  No setPilot
    leaves for an undetected device, for a device in agreement, or once the
    grace window has elapsed. *)
Theorem periodic_setPilot_is_retry scan now w w' o a id st :
  wf w ->
  housewiz_device_periodic scan now w = Some (w', o) ->
  In (Sendto a (SetPilot id st)) o ->
  exists j d d',
    0 <= j < DevicesCount w
    /\ id = WIZ_ID_OFFSET + j
    /\ slot w j = Some d /\ slot w' j = Some d'
    /\ a = ipaddress d
    /\ detected d' <> 0
    /\ status d' <> commanded d'
    /\ st = truthy (commanded d')
    /\ now < pending d'.
Proof.
  intros Hwf Hrun Hin.
  apply (periodic_outputs _ _ _ _ _ Hrun) in Hin.
  destruct Hin as [(_ & Hin) | (Hsw & j & d & Hj & Hd & Hin)].
  - apply sense_no_setPilot in Hin. discriminate.
  - destruct (periodic_spec scan now w Hwf)
      as (w2 & o2 & Hrun2 & _ & _ & _ & Hslots).
    rewrite Hrun in Hrun2. inversion Hrun2; subst w2 o2.
    specialize (Hslots j d Hd). rewrite Hsw in Hslots.
    destruct (Z.leb_spec 0 j); [|lia].
    destruct (Z.ltb_spec j (DevicesCount w)); [|lia].
    cbn [andb] in Hslots.
    destruct (periodic_device_setPilot _ _ _ _ _ _ _ Hin)
      as (P1 & P2 & P3 & P4 & P5 & P6).
    exists j, d, (fst (periodic_device (Networks w') now j d)).
    repeat split; assumption || lia.
Qed.

Lemma periodic_setPilot_is_retry_witness :
  exists j d d',
    0 <= j < 1
    /\ 12000 = WIZ_ID_OFFSET + j
    /\ slot (world_of (lamp_off ++ [OpSet 1000 0 1 0])) j = Some d
    /\ slot (world_of (lamp_off ++ [OpSet 1000 0 1 0; OpPeriodic [] 1004]))
            j = Some d'
    /\ ipaddress d' = ipaddress d
    /\ detected d' <> 0
    /\ status d' <> commanded d'.
Proof.
  destruct (periodic_setPilot_is_retry [] 1004
              (world_of (lamp_off ++ [OpSet 1000 0 1 0]))
              (world_of (lamp_off ++ [OpSet 1000 0 1 0; OpPeriodic [] 1004]))
              [Event "DEVICE" "lamp1" "RETRY" "on";
               Sendto {| sin_family := AF_INET; sin_port := htons 38899;
                         sin_addr := 3232235826 |} (SetPilot 12000 true)]
              {| sin_family := AF_INET; sin_port := htons 38899;
                 sin_addr := 3232235826 |} 12000 true)
    as (j & d & d' & H1 & H2 & H3 & H4 & H5 & H6 & H7 & _).
  - vm_compute. split; [split; discriminate | reflexivity].
  - vm_compute. reflexivity.
  - right. left. reflexivity.
  - exists j, d, d'.
    assert (Ej : j = 0) by (unfold WIZ_ID_OFFSET in H2; lia). subst j.
    assert (Ed : ipaddress d' = ipaddress d).
    { vm_compute in H3, H4. inversion H3; inversion H4; subst.
      reflexivity. }
    repeat split; try assumption; lia.
Defined.

(** X12.  A second call of [housewiz_device_periodic] within the same
    second does nothing: after any call at [now], another call at [now],
    whatever the interfaces then, leaves every variable of the module as it
    is and sends and logs nothing. *)
Theorem periodic_twice_same_second scan scan' now w w1 o1 :
  housewiz_device_periodic scan now w = Some (w1, o1) ->
  housewiz_device_periodic scan' now w1 = Some (w1, []).
Proof.
  intros Hrun.
  assert (Hclock : now < LastSense w1 + 60 /\ now < LastRetry w1 + 5).
  { revert Hrun. unfold housewiz_device_periodic.
    destruct (Z.leb_spec (LastSense w + 60) now) as [Hs|Hs].
    - cbn [LastRetry set_LastSense set_Networks].
      destruct (Z.ltb_spec now (LastRetry w + 5)) as [Hg|Hg].
      + intros E. inversion E; subst. simpl. lia.
      + destruct (periodic_loop _ _ _ _) as [[w3 o3]|] eqn:Hloop;
          [|discriminate].
        step. intros E. inversion E; subst.
        rewrite (periodic_loop_globals _ _ _ _ _ _ Hloop). simpl. lia.
    - destruct (Z.ltb_spec now (LastRetry w + 5)) as [Hg|Hg].
      + intros E. inversion E; subst. lia.
      + destruct (periodic_loop _ _ _ _) as [[w3 o3]|] eqn:Hloop;
          [|discriminate].
        step. intros E. inversion E; subst.
        rewrite (periodic_loop_globals _ _ _ _ _ _ Hloop). simpl. lia. }
  destruct Hclock as (Hs & Hg). unfold housewiz_device_periodic.
  destruct (Z.leb_spec (LastSense w1 + 60) now); [lia|].
  destruct (Z.ltb_spec now (LastRetry w1 + 5)); [reflexivity | lia].
Qed.

Lemma periodic_twice_same_second_witness :
  housewiz_device_periodic [] 1100
    (world_of (lamp_on ++ [OpPeriodic [] 1100]))
  = Some (world_of (lamp_on ++ [OpPeriodic [] 1100]), []).
Proof.
  apply (periodic_twice_same_second [] [] 1100 (world_of lamp_on)
           (world_of (lamp_on ++ [OpPeriodic [] 1100]))
           [Event "DEVICE" "lamp1" "SILENT" "MAC ADDRESS aabbccddeeff"]).
  vm_compute. reflexivity.
Defined.

(** ** The search, completely *)

Lemma mac_search_loop_found m n : forall i w k,
  0 <= i ->
  mac_search_loop m i n w = Some k ->
  0 <= k ->
  i <= k < i + Z.of_nat n
  /\ (exists d, slot w k = Some d /\ strcasecmp m (macaddress d) = 0)
  /\ (forall j, i <= j < k ->
        exists d, slot w j = Some d /\ strcasecmp m (macaddress d) <> 0).
Proof.
  induction n as [|n IH]; intros i w k Hi Hrun Hk; simpl in Hrun.
  - inversion Hrun. lia.
  - destruct (slot w i) as [d|] eqn:Hd; simpl in Hrun; [|discriminate].
    destruct (Z.eqb_spec (strcasecmp m (macaddress d)) 0) as [E|N].
    + inversion Hrun; subst k. split; [lia|]. split; [eauto|].
      intros j Hj. lia.
    + destruct (IH (i + 1) w k ltac:(lia) Hrun Hk) as (Hr & Hhit & Hmiss).
      split; [lia|]. split; [exact Hhit|].
      intros j Hj. destruct (Z.eq_dec j i) as [->|Hne]; [eauto|].
      apply Hmiss. lia.
Qed.

(** X13.  [housewiz_device_mac_search] on a well-formed registry returns
    the index of the first record in use whose MAC address compares equal
    to the argument under [strcasecmp], and -1 when no record in use does;
    two arguments that differ in letter case only get the same answer. *)
Theorem mac_search_first_match m w :
  wf w ->
  exists k,
    housewiz_device_mac_search m w = Some k
    /\ ((k = -1
         /\ forall j d, 0 <= j < DevicesCount w -> slot w j = Some d ->
              strcasecmp m (macaddress d) <> 0)
        \/ (0 <= k < DevicesCount w
            /\ (exists d, slot w k = Some d
                          /\ strcasecmp m (macaddress d) = 0)
            /\ forall j d, 0 <= j < k -> slot w j = Some d ->
                 strcasecmp m (macaddress d) <> 0))
    /\ forall m', strlower m' = strlower m ->
         housewiz_device_mac_search m' w = Some k.
Proof.
  intros Hwf. destruct (mac_search_total m w Hwf) as (k & Hk & Hrange).
  exists k. split; [exact Hk|]. split.
  - destruct Hrange as [-> | Hin].
    + left. split; [reflexivity|]. intros j d Hj Hd.
      destruct (mac_search_loop_miss m _ 0 w (Z.le_refl 0) Hk j)
        as (d0 & Hd0 & Hn); [destruct Hwf; lia|].
      rewrite Hd in Hd0. inversion Hd0; subst. exact Hn.
    + right.
      destruct (mac_search_loop_found m _ 0 w k (Z.le_refl 0) Hk
                  (proj1 Hin)) as (_ & Hhit & Hmiss).
      split; [exact Hin|]. split; [exact Hhit|].
      intros j d Hj Hd. destruct (Hmiss j Hj) as (d0 & Hd0 & Hn).
      rewrite Hd in Hd0. inversion Hd0; subst. exact Hn.
  - intros m' Hlow. rewrite (mac_search_lower m' m w Hlow). exact Hk.
Qed.

Lemma mac_search_first_match_witness :
  exists k,
    housewiz_device_mac_search "WIZ7" (world_of full_house) = Some k
    /\ forall m', strlower m' = strlower "WIZ7" ->
         housewiz_device_mac_search m' (world_of full_house) = Some k.
Proof.
  destruct (mac_search_first_match "WIZ7" (world_of full_house))
    as (k & H1 & _ & H3).
  - vm_compute. split; [split; discriminate | reflexivity].
  - exists k. split; assumption.
Defined.

(** ** Reload and export *)

(** X14.  A reload that finds its configuration and its memory replaces
    the whole registry: one record per configured entry, in order, then 32
    free slots of headroom.  A record holds the entry's name, address and
    description cut to 31, 15 and 255 characters (an absent entry or field
    leaves them empty), and every record starts undetected, off, without
    command, deadline or endpoint, whatever the registry held before.  The
    changed flag, the interface list and the two timers are not touched. *)
Theorem refresh_loads_configuration reason cfg entries w :
  wf w ->
  (if 0 <? config_size cfg then config_devices cfg = Some entries
   else entries = []) ->
  exists w',
    housewiz_device_refresh reason cfg true w =
      Some (None, w', [Event "CONFIG" "wiz" "ACTIVATING" reason])
    /\ housewiz_device_count w' = Z.of_nat (length entries)
    /\ DevicesSpace w' = Z.of_nat (length entries) + 32
    /\ Devices w' = map loaded entries ++ replicate 32 DeviceMap_zero
    /\ (forall i c, entries !! i = Some (Some c) ->
          exists d, slot w' (Z.of_nat i) = Some d
            /\ name d = default EmptyString
                          (strtake 31 <$> cfg_name c)
            /\ macaddress d = default EmptyString
                                (strtake 15 <$> cfg_address c)
            /\ description d = default EmptyString
                                 (strtake 255 <$> cfg_description c))
    /\ Forall (fun d => detected d = 0 /\ status d = 0 /\ commanded d = 0
                        /\ pending d = 0 /\ deadline d = 0
                        /\ ipaddress d = sockaddr_zero) (Devices w')
    /\ DeviceListChanged w' = DeviceListChanged w
    /\ Networks w' = Networks w
    /\ LastRetry w' = LastRetry w
    /\ LastSense w' = LastSense w.
Proof.
  intros Hwf Hcfg.
  destruct (refresh_loaded reason cfg entries w Hwf Hcfg)
    as (w1 & Hrun & G1 & G2 & G3 & G4).
  eexists. split; [exact Hrun|].
  split; [reflexivity|]. split; [reflexivity|]. split; [reflexivity|].
  split.
  { intros i c Hi. exists (loaded (Some c)). split.
    - unfold slot. destruct (Z.ltb_spec (Z.of_nat i) 0); [lia|].
      rewrite Nat2Z.id. simpl.
      rewrite lookup_app_l by
        (rewrite length_map; eapply lookup_lt_Some; exact Hi).
      rewrite list_lookup_fmap, Hi. reflexivity.
    - unfold loaded, load_device, housewiz_device_reset, safecpy.
      destruct (cfg_name c), (cfg_address c), (cfg_description c);
        repeat split; reflexivity. }
  split.
  { cbn [Devices set_Devices]. apply Forall_app. split.
    - apply Forall_forall. intros d Hd. apply list_elem_of_fmap in Hd.
      destruct Hd as (e & -> & _).
      destruct e as [c|]; [|repeat split; reflexivity].
      unfold loaded, load_device, housewiz_device_reset.
      destruct (cfg_name c), (cfg_address c), (cfg_description c);
        repeat split; reflexivity.
    - apply Forall_replicate. repeat split; reflexivity. }
  repeat split; assumption.
Qed.

Lemma refresh_loads_configuration_witness :
  exists w',
    housewiz_device_refresh "CONFIG CHANGED" config1 true
      (world_of full_house) =
      Some (None, w', [Event "CONFIG" "wiz" "ACTIVATING" "CONFIG CHANGED"])
    /\ housewiz_device_count w' = 1
    /\ DevicesSpace w' = 33
    /\ Devices w' = loaded (Some lamp1) :: replicate 32 DeviceMap_zero.
Proof.
  destruct (refresh_loads_configuration "CONFIG CHANGED" config1
              [Some lamp1] (world_of full_house))
    as (w' & H1 & H2 & H3 & H4 & _).
  - vm_compute. split; [split; discriminate | reflexivity].
  - reflexivity.
  - exists w'. repeat split; assumption.
Defined.

(** X15.  A reload whose configuration is not empty but holds no array
    [.wiz.devices] fails with "cannot find devices array" and leaves the
    registry empty: no device is counted, the search finds no MAC address
    and nothing is exported.  The array stays allocated. *)
Theorem refresh_without_device_array reason cfg room w :
  wf w ->
  0 < config_size cfg ->
  config_devices cfg = None ->
  exists w',
    housewiz_device_refresh reason cfg room w =
      Some (Some "cannot find devices array", w',
            [Event "CONFIG" "wiz" "ACTIVATING" reason])
    /\ housewiz_device_count w' = 0
    /\ wf w'
    /\ DevicesSpace w' = DevicesSpace w
    /\ housewiz_device_live_config w' = Some []
    /\ forall m, housewiz_device_mac_search m w' = Some (-1).
Proof.
  intros ((Hc0 & Hc1) & Hs) Hsz Hcfg. unfold housewiz_device_refresh.
  destruct (clear_loop_spec (Z.to_nat (DevicesCount w)) 0 w)
    as (l & Hclear & Hlen); [lia | lia |].
  rewrite Hclear. step.
  destruct (Z.ltb_spec 0 (config_size cfg)); [|lia]. rewrite Hcfg.
  eexists. split; [reflexivity|]. split; [reflexivity|].
  split; [unfold wf; simpl; rewrite Hlen; lia|].
  split; [reflexivity|]. split; [reflexivity|]. intros m. reflexivity.
Qed.

Lemma refresh_without_device_array_witness :
  exists w',
    housewiz_device_refresh "CONFIG CHANGED"
      {| config_size := 7; config_devices := None |} true
      (world_of lamp_on) =
      Some (Some "cannot find devices array", w',
            [Event "CONFIG" "wiz" "ACTIVATING" "CONFIG CHANGED"])
    /\ housewiz_device_count w' = 0
    /\ housewiz_device_live_config w' = Some [].
Proof.
  destruct (refresh_without_device_array "CONFIG CHANGED"
              {| config_size := 7; config_devices := None |} true
              (world_of lamp_on))
    as (w' & H1 & H2 & _ & _ & H5 & _).
  - vm_compute. split; [split; discriminate | reflexivity].
  - simpl. lia.
  - reflexivity.
  - exists w'. repeat split; assumption.
Defined.

Lemma live_config_loop_spec n : forall i w,
  0 <= i -> i + Z.of_nat n <= Z.of_nat (length (Devices w)) ->
  exists l,
    live_config_loop i n w = Some l
    /\ forall e,
         In e l <->
         exists j d, i <= j < i + Z.of_nat n /\ slot w j = Some d
                     /\ live_config_device d = Some e.
Proof.
  induction n as [|n IH]; intros i w Hi Hn.
  - exists []. split; [reflexivity|]. intros e.
    split; [intros [] | intros (j & d & Hj & _); lia].
  - destruct (slot_is_Some w i) as [d Hd]; [lia|].
    destruct (IH (i + 1) w) as (rest & Hrun & Hrest); [lia | lia |].
    cbn [live_config_loop]. rewrite Hd. step. rewrite Hrun. step.
    eexists. split; [reflexivity|]. intros e.
    assert (Hin : In e rest <->
              exists j d0, i + 1 <= j < i + Z.of_nat (S n)
                           /\ slot w j = Some d0
                           /\ live_config_device d0 = Some e).
    { rewrite Hrest. split; intros (j & d0 & Hj & Hx);
        exists j, d0; (split; [lia | exact Hx]). }
    destruct (live_config_device d) as [e0|] eqn:Ee.
    + simpl. rewrite Hin. split.
      * intros [<- | (j & d0 & Hj & Hx)].
        -- exists i, d. split; [lia|]. split; assumption.
        -- exists j, d0. split; [lia | exact Hx].
      * intros (j & d0 & Hj & Hsj & Hx).
        destruct (Z.eq_dec j i) as [->|Hne].
        -- left. rewrite Hd in Hsj. inversion Hsj; subst. congruence.
        -- right. exists j, d0. split; [lia|]. split; assumption.
    + rewrite Hin. split.
      * intros (j & d0 & Hj & Hx). exists j, d0. split; [lia | exact Hx].
      * intros (j & d0 & Hj & Hsj & Hx).
        destruct (Z.eq_dec j i) as [->|Hne].
        -- rewrite Hd in Hsj. inversion Hsj; subst. congruence.
        -- exists j, d0. split; [lia|]. split; assumption.
Qed.

(** X16.  [housewiz_device_live_config] on a well-formed registry exports
    exactly the records in use that have both a name and a MAC address,
    each with its name, address and description; a record without a name
    or without an address is never exported, and neither is a free slot. *)
Theorem live_config_exports_named_devices w :
  wf w ->
  exists l,
    housewiz_device_live_config w = Some l
    /\ forall n m t,
         In (n, m, t) l <->
         exists i d, 0 <= i < DevicesCount w /\ slot w i = Some d
                     /\ name d = n /\ macaddress d = m
                     /\ description d = t
                     /\ n <> EmptyString /\ m <> EmptyString.
Proof.
  intros ((Hc0 & Hc1) & Hs). unfold housewiz_device_live_config.
  destruct (live_config_loop_spec (Z.to_nat (DevicesCount w)) 0 w)
    as (l & Hrun & Hl); [lia | lia |].
  exists l. split; [exact Hrun|]. intros n m t. rewrite Hl.
  assert (Hdev : forall d,
            live_config_device d = Some (n, m, t) <->
            name d = n /\ macaddress d = m /\ description d = t
            /\ n <> EmptyString /\ m <> EmptyString).
  { intros d. unfold live_config_device.
    destruct (String.eqb_spec (name d) EmptyString) as [En|En];
      destruct (String.eqb_spec (macaddress d) EmptyString) as [Em|Em];
      cbn [orb]; split;
      try discriminate;
      try (intros (<- & <- & _ & Hn & Hm); contradiction).
    - intros E. inversion E; subst. auto.
    - intros (<- & <- & <- & _). reflexivity. }
  split; intros (i & d & Hi & Hd & Hx); exists i, d;
    (split; [lia|]); (split; [exact Hd|]); apply Hdev; exact Hx.
Qed.

Lemma live_config_exports_named_devices_witness :
  exists l,
    housewiz_device_live_config
      (world_of (startup ++ [OpReceive 1000 (firstBeat "a8bb50aabbcc")]))
      = Some l
    /\ In ("wiz2", "a8bb50aabbcc", "autogenerated") l.
Proof.
  destruct (live_config_exports_named_devices
              (world_of (startup ++
                         [OpReceive 1000 (firstBeat "a8bb50aabbcc")])))
    as (l & H1 & H2).
  - vm_compute. split; [split; discriminate | reflexivity].
  - exists l. split; [exact H1|]. apply H2.
    exists 1, (default DeviceMap_zero
                 (slot (world_of (startup ++
                          [OpReceive 1000 (firstBeat "a8bb50aabbcc")])) 1)).
    split; [vm_compute; split; [discriminate | reflexivity]|].
    split; [vm_compute; reflexivity|].
    repeat split; discriminate || reflexivity.
Defined.

Lemma live_config_loop_app l : forall pre rest w,
  Devices w = pre ++ l ++ rest ->
  live_config_loop (Z.of_nat (length pre)) (length l) w
  = Some (omap live_config_device l).
Proof.
  induction l as [|x l IH]; intros pre rest w Hw; [reflexivity|].
  assert (Hslot : slot w (Z.of_nat (length pre)) = Some x).
  { unfold slot. destruct (Z.ltb_spec (Z.of_nat (length pre)) 0); [lia|].
    rewrite Nat2Z.id, Hw. apply lookup_middle. }
  cbn [length live_config_loop]. rewrite Hslot. step.
  replace (Z.of_nat (length pre) + 1)
    with (Z.of_nat (length (pre ++ [x])))
    by (rewrite length_app; simpl; lia).
  rewrite (IH (pre ++ [x]) rest w)
    by (rewrite Hw, <- app_assoc; reflexivity).
  step. simpl. destruct (live_config_device x); reflexivity.
Qed.

Lemma export_of_loaded l :
  Forall fits_record l ->
  omap live_config_device (map loaded (map config_entry l)) = l.
Proof.
  induction 1 as [|[[n m] t] l (Hn & Hm & Ln & Lm & Lt) _ IH];
    [reflexivity|].
  simpl in Hn, Hm, Ln, Lm, Lt.
  change (omap live_config_device
            (map loaded (map config_entry ((n, m, t) :: l))))
    with (match live_config_device (loaded (config_entry (n, m, t))) with
          | Some y =>
              y :: omap live_config_device (map loaded (map config_entry l))
          | None => omap live_config_device (map loaded (map config_entry l))
          end).
  assert (E : live_config_device (loaded (config_entry (n, m, t)))
              = Some (n, m, t)).
  { unfold live_config_device, loaded, config_entry, load_device,
      housewiz_device_reset, safecpy.
    cbn [fst snd cfg_name cfg_address cfg_description name macaddress
         description set_name set_macaddress set_description set_deadline
         set_pending set_status set_commanded Nat.sub].
    rewrite !strtake_all by assumption.
    destruct (String.eqb_spec n EmptyString); [contradiction|].
    destruct (String.eqb_spec m EmptyString); [contradiction|].
    reflexivity. }
  rewrite E, IH. reflexivity.
Qed.

(** X17.  Load and export are inverse to each other on what the records
    can hold: after a reload of a configuration whose entries all have a
    name and an address of 1 to 31 and 1 to 15 characters and a description
    of 255 characters at most, [housewiz_device_live_config] exports those
    entries, unchanged and in order. *)
Theorem export_after_reload reason cfg l w :
  wf w ->
  0 < config_size cfg ->
  config_devices cfg = Some (map config_entry l) ->
  Forall fits_record l ->
  exists w' o,
    housewiz_device_refresh reason cfg true w = Some (None, w', o)
    /\ housewiz_device_live_config w' = Some l.
Proof.
  intros Hwf Hsz Hcfg Hfit.
  destruct (refresh_loaded reason cfg (map config_entry l) w Hwf)
    as (w1 & Hrun & _).
  { destruct (Z.ltb_spec 0 (config_size cfg)); [exact Hcfg | lia]. }
  rewrite Hrun. eexists _, _. split; [reflexivity|].
  unfold housewiz_device_live_config.
  cbn [DevicesCount set_Devices set_DevicesSpace set_DevicesCount].
  rewrite Nat2Z.id.
  replace (length (map config_entry l))
    with (length (map loaded (map config_entry l)))
    by (rewrite !length_map; reflexivity).
  rewrite (live_config_loop_app (map loaded (map config_entry l)) []
             (replicate 32 DeviceMap_zero)) by reflexivity.
  rewrite (export_of_loaded l Hfit). reflexivity.
Qed.

Lemma export_after_reload_witness :
  exists w' o,
    housewiz_device_refresh "CONFIG CHANGED"
      {| config_size := 2;
         config_devices :=
           Some (map config_entry
                   [("porch", "a8bb50112233", "front door");
                    ("desk", "a8bb50445566", EmptyString)]) |}
      true (world_of full_house) = Some (None, w', o)
    /\ housewiz_device_live_config w'
       = Some [("porch", "a8bb50112233", "front door");
               ("desk", "a8bb50445566", EmptyString)].
Proof.
  apply export_after_reload.
  - vm_compute. split; [split; discriminate | reflexivity].
  - simpl. lia.
  - reflexivity.
  - repeat constructor; simpl; try discriminate; lia.
Defined.

(** X18.  The registry after a reload depends on the configuration only.
    From any two well-formed registries, a reload of the same configuration
    returns the same result and logs the same; when it succeeds the two
    registries end with the same records, count and space, so reloading
    twice gives what reloading once gives. *)
Theorem reload_depends_on_configuration_only reason cfg w1 w2 :
  wf w1 -> wf w2 ->
  exists r w1' w2' o,
    housewiz_device_refresh reason cfg true w1 = Some (r, w1', o)
    /\ housewiz_device_refresh reason cfg true w2 = Some (r, w2', o)
    /\ (r = None ->
          Devices w1' = Devices w2'
          /\ DevicesCount w1' = DevicesCount w2'
          /\ DevicesSpace w1' = DevicesSpace w2').
Proof.
  intros Hwf1 Hwf2.
  destruct (0 <? config_size cfg) eqn:Esz.
  - destruct (config_devices cfg) as [entries|] eqn:Ecfg.
    + destruct (refresh_loaded reason cfg entries w1 Hwf1) as (v1 & H1 & _);
        [rewrite Esz; exact Ecfg|].
      destruct (refresh_loaded reason cfg entries w2 Hwf2) as (v2 & H2 & _);
        [rewrite Esz; exact Ecfg|].
      rewrite H1, H2. eexists _, _, _, _.
      split; [reflexivity|]. split; [reflexivity|].
      intros _. repeat split; reflexivity.
    + destruct (refresh_without_device_array reason cfg true w1 Hwf1)
        as (v1 & H1 & _); [apply Z.ltb_lt; exact Esz | exact Ecfg |].
      destruct (refresh_without_device_array reason cfg true w2 Hwf2)
        as (v2 & H2 & _); [apply Z.ltb_lt; exact Esz | exact Ecfg |].
      rewrite H1, H2. eexists _, _, _, _.
      split; [reflexivity|]. split; [reflexivity|]. discriminate.
  - destruct (refresh_loaded reason cfg [] w1 Hwf1) as (v1 & H1 & _);
      [rewrite Esz; reflexivity|].
    destruct (refresh_loaded reason cfg [] w2 Hwf2) as (v2 & H2 & _);
      [rewrite Esz; reflexivity|].
    rewrite H1, H2. eexists _, _, _, _.
    split; [reflexivity|]. split; [reflexivity|].
    intros _. repeat split; reflexivity.
Qed.

Lemma reload_depends_on_configuration_only_witness :
  exists r w1' w2' o,
    housewiz_device_refresh "AGAIN" config1 true (world_of startup)
      = Some (r, w1', o)
    /\ housewiz_device_refresh "AGAIN" config1 true (world_of full_house)
       = Some (r, w2', o)
    /\ (r = None ->
          Devices w1' = Devices w2'
          /\ DevicesCount w1' = DevicesCount w2'
          /\ DevicesSpace w1' = DevicesSpace w2').
Proof.
  apply reload_depends_on_configuration_only.
  - vm_compute. split; [split; discriminate | reflexivity].
  - vm_compute. split; [split; discriminate | reflexivity].
Defined.

(** ** The interfaces of the host *)

Lemma land255 x : Z.land x 255 = x mod 256.
Proof.
  change 255 with (Z.ones 8). rewrite Z.land_ones by lia. reflexivity.
Qed.

Lemma lor_disjoint hi lo k :
  0 <= k -> 0 <= lo < 2 ^ k -> Z.lor (hi * 2 ^ k) lo = hi * 2 ^ k + lo.
Proof.
  intros Hk Hlo. symmetry. apply Z.add_nocarry_lor.
  apply Z.bits_inj'. intros n Hn. rewrite Z.land_spec, Z.bits_0.
  destruct (Z.lt_ge_cases n k).
  - rewrite Z.mul_pow2_bits_low by lia. reflexivity.
  - replace (Z.testbit lo n) with false; [apply andb_false_r|].
    symmetry. destruct (Z.eq_dec lo 0) as [->|Hne]; [apply Z.bits_0|].
    apply Z.bits_above_log2; [lia|].
    apply Z.lt_le_trans with k; [|lia].
    apply Z.log2_lt_pow2; lia.
Qed.

(** [ntohl] turns the address as it lies in memory, first octet first, into
    the number whose most significant byte is the first octet. *)
Lemma ntohl_octets a b c d :
  0 <= a < 256 -> 0 <= b < 256 -> 0 <= c < 256 -> 0 <= d < 256 ->
  ntohl (a + 256 * b + 65536 * c + 16777216 * d)
  = 16777216 * a + 65536 * b + 256 * c + d.
Proof.
  intros Ha Hb Hc Hd. unfold ntohl.
  rewrite !Z.shiftr_div_pow2 by lia. rewrite !land255.
  change (2 ^ 8) with 256. change (2 ^ 16) with 65536.
  change (2 ^ 24) with 16777216.
  set (x := a + 256 * b + 65536 * c + 16777216 * d).
  assert (E1 : x mod 256 = a) by (unfold x; Z.div_mod_to_equations; lia).
  assert (E2 : (x / 256) mod 256 = b)
    by (unfold x; Z.div_mod_to_equations; lia).
  assert (E3 : (x / 65536) mod 256 = c)
    by (unfold x; Z.div_mod_to_equations; lia).
  assert (E4 : (x / 16777216) mod 256 = d)
    by (unfold x; Z.div_mod_to_equations; lia).
  rewrite E1, E2, E3, E4. rewrite !Z.shiftl_mul_pow2 by lia.
  rewrite (lor_disjoint c d 8) by lia.
  rewrite (lor_disjoint b _ 16) by lia.
  rewrite (lor_disjoint a _ 24) by lia.
  lia.
Qed.

Lemma strlen_append a b :
  String.length (a +:+ b) = (String.length a + String.length b)%nat.
Proof. induction a as [|c a IH]; simpl; [reflexivity | rewrite IH; reflexivity]. Qed.

Lemma decimal_octet n :
  0 <= n < 256 -> (String.length (decimal n) <= 3)%nat.
Proof.
  intros Hn.
  assert (H : forallb
                (fun k => (String.length (decimal (Z.of_nat k)) <=? 3)%nat)
                (seq 0 256) = true) by (vm_compute; reflexivity).
  rewrite forallb_forall in H. specialize (H (Z.to_nat n)).
  rewrite Z2Nat.id in H by lia. apply Nat.leb_le, H, in_seq. lia.
Qed.

(** X19.  The text [housewiz_device_enumerate] records for an IPv4
    address is its dotted decimal form: for the address whose four octets
    lie in memory in the order a, b, c, d it is a.b.c.d, and it always fits
    the 20 bytes of the field. *)
Theorem ip_text_dotted a b c d :
  0 <= a < 256 -> 0 <= b < 256 -> 0 <= c < 256 -> 0 <= d < 256 ->
  ip_text (a + 256 * b + 65536 * c + 16777216 * d)
  = decimal a +:+ "." +:+ decimal b +:+ "." +:+ decimal c +:+ "."
    +:+ decimal d.
Proof.
  intros Ha Hb Hc Hd. unfold ip_text. rewrite ntohl_octets by assumption.
  rewrite !Z.shiftr_div_pow2 by lia. rewrite !land255.
  change (2 ^ 8) with 256. change (2 ^ 16) with 65536.
  change (2 ^ 24) with 16777216.
  set (x := 16777216 * a + 65536 * b + 256 * c + d).
  assert (E1 : x mod 256 = d) by (unfold x; Z.div_mod_to_equations; lia).
  assert (E2 : (x / 256) mod 256 = c)
    by (unfold x; Z.div_mod_to_equations; lia).
  assert (E3 : (x / 65536) mod 256 = b)
    by (unfold x; Z.div_mod_to_equations; lia).
  assert (E4 : (x / 16777216) mod 256 = a)
    by (unfold x; Z.div_mod_to_equations; lia).
  rewrite E1, E2, E3, E4. apply strtake_all.
  pose proof (decimal_octet a Ha). pose proof (decimal_octet b Hb).
  pose proof (decimal_octet c Hc). pose proof (decimal_octet d Hd).
  rewrite !strlen_append. simpl. lia.
Qed.

Lemma ip_text_dotted_witness :
  ip_text (192 + 256 * 168 + 65536 * 1 + 16777216 * 50) = "192.168.1.50".
Proof. apply (ip_text_dotted 192 168 1 50); lia. Defined.

Lemma hexbyte_unhex b :
  0 <= b < 256 ->
  exists c1 c2,
    hexbyte b = String c1 (String c2 EmptyString)
    /\ hexval c1 = Some (b / 16) /\ hexval c2 = Some (b mod 16).
Proof.
  intros Hb.
  assert (H : forallb
                (fun k =>
                   match hexbyte (Z.of_nat k) with
                   | String c1 (String c2 EmptyString) =>
                       match hexval c1, hexval c2 with
                       | Some h, Some l =>
                           (h =? Z.of_nat k / 16) && (l =? Z.of_nat k mod 16)
                       | _, _ => false
                       end
                   | _ => false
                   end) (seq 0 256) = true) by (vm_compute; reflexivity).
  rewrite forallb_forall in H. specialize (H (Z.to_nat b)).
  rewrite Z2Nat.id in H by lia.
  assert (Hin : In (Z.to_nat b) (seq 0 256)) by (apply in_seq; lia).
  specialize (H Hin).
  destruct (hexbyte b) as [|c1 [|c2 [|]]]; try discriminate.
  exists c1, c2. split; [reflexivity|].
  destruct (hexval c1) as [h|], (hexval c2) as [l|]; try discriminate.
  apply andb_true_iff in H. destruct H as (H1 & H2).
  apply Z.eqb_eq in H1, H2. rewrite H1, H2. split; reflexivity.
Qed.

(** X20.  The text recorded for a hardware address is two lower-case
    hexadecimal digits per byte, without separator: read back two digits at
    a time it gives the bytes of the address, and it is twice as long as
    the address. *)
Theorem mac_text_unhex halen sll_addr :
  Forall (fun b => 0 <= b < 256) sll_addr ->
  (halen <= length sll_addr)%nat ->
  unhex (mac_text halen sll_addr) = Some (take halen sll_addr)
  /\ String.length (mac_text halen sll_addr) = (2 * halen)%nat.
Proof.
  revert sll_addr. induction halen as [|n IH]; intros addr Hb Hlen.
  - destruct addr; split; reflexivity.
  - destruct addr as [|b rest]; [simpl in Hlen; lia|].
    inversion Hb as [|? ? Hb0 Hrest]; subst.
    destruct (IH rest Hrest ltac:(simpl in Hlen; lia)) as (IH1 & IH2).
    destruct (hexbyte_unhex b Hb0) as (c1 & c2 & E & H1 & H2).
    cbn [mac_text take]. rewrite E.
    change (String c1 (String c2 EmptyString) +:+ mac_text n rest)
      with (String c1 (String c2 (mac_text n rest))).
    cbn [unhex String.length]. rewrite H1, H2, IH1, IH2. step.
    split; [|lia]. f_equal. f_equal. Z.div_mod_to_equations. lia.
Qed.

Lemma mac_text_unhex_witness :
  unhex (mac_text 6 [184; 39; 235; 1; 2; 3; 0; 0])
  = Some [184; 39; 235; 1; 2; 3]
  /\ String.length (mac_text 6 [184; 39; 235; 1; 2; 3; 0; 0]) = 12%nat.
Proof.
  apply (mac_text_unhex 6 [184; 39; 235; 1; 2; 3; 0; 0]).
  - repeat constructor; lia.
  - simpl. lia.
Defined.

Lemma network_find_None name0 nets : forall i,
  network_find name0 i nets = None <-> ~ In name0 (map net_name nets).
Proof.
  induction nets as [|n nets IH]; intros i; simpl.
  - split; [intros _ [] | reflexivity].
  - destruct (String.eqb_spec name0 (net_name n)) as [E|N].
    + split; [discriminate | intros H; exfalso; apply H; left; auto].
    + rewrite IH. split.
      * intros H [E|Hin]; [apply N; auto | auto].
      * intros H Hin. apply H. right. exact Hin.
Qed.

Lemma network_find_Some name0 nets : forall i k,
  network_find name0 i nets = Some k ->
  i <= k < i + Z.of_nat (length nets).
Proof.
  induction nets as [|n nets IH]; intros i k; simpl; [discriminate|].
  destruct (String.eqb name0 (net_name n)).
  - intros E. inversion E; subst. lia.
  - intros H. apply IH in H. lia.
Qed.

Lemma alter_names (f : NetworkMap -> NetworkMap) nets : forall i,
  (forall n, net_name (f n) = net_name n) ->
  map net_name (alter f i nets) = map net_name nets.
Proof.
  induction nets as [|n nets IH]; intros [|i] Hf; simpl;
    try reflexivity.
  - rewrite Hf. reflexivity.
  - f_equal. apply IH. exact Hf.
Qed.

Lemma In_take (x : NetworkMap) l : forall n, In x (take n l) -> In x l.
Proof.
  induction l as [|y l IH]; intros [|n]; simpl; try tauto.
  intros [E|H]; [left; exact E | right; eapply IH; exact H].
Qed.

(** What one call of [housewiz_device_enumerate_add] keeps: at most 8
    entries, all names different, the returned index inside the list, and
    no name but the old ones and the new one. *)
Lemma enumerate_add_spec name0 nets :
  (length nets <= 8)%nat ->
  NoDup (map net_name nets) ->
  (String.length name0 <= 31)%nat ->
  let '(idx, nets1) := housewiz_device_enumerate_add name0 nets in
  (length nets1 <= 8)%nat
  /\ 0 <= idx < Z.of_nat (length nets1)
  /\ NoDup (map net_name nets1)
  /\ forall x, In x (map net_name nets1) ->
       In x (map net_name nets) \/ x = name0.
Proof.
  intros Hlen Hnd Hname. unfold housewiz_device_enumerate_add.
  destruct (network_find name0 0 nets) as [k|] eqn:Hfind.
  - apply network_find_Some in Hfind.
    split; [exact Hlen|]. split; [lia|]. split; [exact Hnd|]. auto.
  - apply network_find_None in Hfind.
    set (nets1 := if NETWORKS_MAX <=? Z.of_nat (length nets)
                  then take (Z.to_nat (NETWORKS_MAX - 1)) nets else nets).
    assert (Hsub : forall x, In x (map net_name nets1) ->
                     In x (map net_name nets)).
    { unfold nets1. destruct (NETWORKS_MAX <=? Z.of_nat (length nets));
        [|auto].
      intros x Hx. apply in_map_iff in Hx. destruct Hx as (n & <- & Hn).
      apply in_map. eapply In_take. exact Hn. }
    assert (Hlen1 : (length nets1 <= 7)%nat).
    { unfold nets1, NETWORKS_MAX.
      destruct (Z.leb_spec 8 (Z.of_nat (length nets)));
        [rewrite length_take | ]; lia. }
    assert (Hnd1 : NoDup (map net_name nets1)).
    { unfold nets1. destruct (NETWORKS_MAX <=? Z.of_nat (length nets));
        [|exact Hnd].
      rewrite <- (take_drop (Z.to_nat (NETWORKS_MAX - 1)) nets), map_app
        in Hnd.
      apply NoDup_app in Hnd. apply Hnd. }
    rewrite length_app. simpl. split; [lia|]. split; [lia|].
    unfold safecpy. rewrite strtake_all by (simpl; lia).
    rewrite map_app. simpl. split.
    + apply NoDup_app. split; [exact Hnd1|]. split.
      * intros x Hx Hx'. apply list_elem_of_In in Hx.
        apply list_elem_of_In in Hx'. destruct Hx' as [<-|[]].
        apply Hfind, Hsub, Hx.
      * apply NoDup_singleton.
    + intros x Hx. apply in_app_iff in Hx.
      destruct Hx as [Hx | [<- | []]]; [left; apply Hsub, Hx | right; auto].
Qed.

Lemma enumerate_loop_spec cursor : forall nets0 nets,
  Forall (fun c => (String.length (ifa_name c) <= 31)%nat) cursor ->
  (length nets0 <= 8)%nat ->
  NoDup (map net_name nets0) ->
  enumerate_loop cursor nets0 = Some nets ->
  (length nets <= 8)%nat
  /\ NoDup (map net_name nets)
  /\ forall x, In x (map net_name nets) ->
       In x (map net_name nets0)
       \/ exists c, In c cursor /\ x = ifa_name c /\ enumerated c.
Proof.
  induction cursor as [|c rest IH]; intros nets0 nets Hnames Hlen Hnd Hrun.
  - inversion Hrun; subst. auto.
  - inversion Hnames as [|? ? Hc Hrest]; subst.
    assert (Hskip : enumerate_loop rest nets0 = Some nets ->
              (length nets <= 8)%nat /\ NoDup (map net_name nets)
              /\ forall x, In x (map net_name nets) ->
                   In x (map net_name nets0)
                   \/ exists c0, In c0 (c :: rest) /\ x = ifa_name c0
                                 /\ enumerated c0).
    { intros H. destruct (IH _ _ Hrest Hlen Hnd H) as (I1 & I2 & I3).
      split; [exact I1|]. split; [exact I2|]. intros x Hx.
      destruct (I3 x Hx) as [Hold | (c0 & Hc0 & Hx0)]; [left; exact Hold|].
      right. exists c0. split; [right; exact Hc0 | exact Hx0]. }
    assert (Htake : forall f nets1 idx,
              (forall n, net_name (f n) = net_name n) ->
              housewiz_device_enumerate_add (ifa_name c) nets0
                = (idx, nets1) ->
              enumerated c ->
              enumerate_loop rest (alter f (Z.to_nat idx) nets1) = Some nets ->
              (length nets <= 8)%nat /\ NoDup (map net_name nets)
              /\ forall x, In x (map net_name nets) ->
                   In x (map net_name nets0)
                   \/ exists c0, In c0 (c :: rest) /\ x = ifa_name c0
                                 /\ enumerated c0).
    { intros f nets1 idx Hf Hadd Hen H.
      pose proof (enumerate_add_spec (ifa_name c) nets0 Hlen Hnd Hc) as Ha.
      rewrite Hadd in Ha. destruct Ha as (A1 & A2 & A3 & A4).
      destruct (IH (alter f (Z.to_nat idx) nets1) nets Hrest) as (I1 & I2 & I3).
      - rewrite length_alter. exact A1.
      - rewrite alter_names by exact Hf. exact A3.
      - exact H.
      - split; [exact I1|]. split; [exact I2|]. intros x Hx.
        destruct (I3 x Hx) as [Hold | (c0 & Hc0 & Hx0)].
        + rewrite alter_names in Hold by exact Hf.
          destruct (A4 x Hold) as [Hx0 | ->]; [left; exact Hx0|].
          right. exists c. split; [left; reflexivity|]. split; auto.
        + right. exists c0. split; [right; exact Hc0 | exact Hx0]. }
    cbn [enumerate_loop] in Hrun.
    destruct (Z.eqb_spec (Z.land (ifa_flags c) IFF_LOOPBACK) 0) as [Hlo|Hlo];
      cbn [negb] in Hrun; [|apply Hskip; exact Hrun].
    destruct (ifa_addr c) as [|s|h a|] eqn:Eaddr;
      try (apply Hskip; exact Hrun).
    + destruct (housewiz_device_enumerate_add (ifa_name c) nets0)
        as [idx nets1] eqn:Hadd.
      apply (Htake (set_net_ip (ip_text s)) nets1 idx
               (fun n => eq_refl) eq_refl); [|exact Hrun].
      split; [exact Hlo|]. left. eauto.
    + destruct (Z.leb_spec 16 h); [apply Hskip; exact Hrun|].
      destruct (Z.leb_spec 8 h); [discriminate|].
      destruct (housewiz_device_enumerate_add (ifa_name c) nets0)
        as [idx nets1] eqn:Hadd.
      apply (Htake (set_net_mac (mac_text (Z.to_nat h) a)) nets1 idx
               (fun n => eq_refl) eq_refl); [|exact Hrun].
      split; [exact Hlo|]. right. exists h, a. split; [exact Eaddr | lia].
Qed.

(** X21.  The list [housewiz_device_enumerate] builds, for interface names
    of 31 characters at most, has at most 8 entries, no two with the same
    name (the IPv4 entry and the hardware entry of an interface share one
    record), and every entry bears the name of an interface that is not a
    loopback and has an IPv4 address or a hardware address shorter than 8
    bytes.  Nothing is listed when [getifaddrs] fails. *)
Theorem enumerate_lists_interfaces interfaces nets :
  Forall (fun c => (String.length (ifa_name c) <= 31)%nat)
         (default [] interfaces) ->
  housewiz_device_enumerate interfaces = Some nets ->
  (length nets <= 8)%nat
  /\ NoDup (map net_name nets)
  /\ (forall n, In n nets ->
        exists c, In c (default [] interfaces)
                  /\ net_name n = ifa_name c /\ enumerated c)
  /\ (interfaces = None -> nets = []).
Proof.
  intros Hnames Hrun. destruct interfaces as [cursor|]; simpl in *.
  - destruct (enumerate_loop_spec cursor [] nets Hnames)
      as (H1 & H2 & H3); [simpl; lia | constructor | exact Hrun |].
    split; [exact H1|]. split; [exact H2|]. split; [|discriminate].
    intros n Hn. destruct (H3 (net_name n) (in_map _ _ _ Hn))
      as [[] | (c & Hc & Hx & He)].
    exists c. auto.
  - inversion Hrun; subst. split; [simpl; lia|]. split; [constructor|].
    split; [intros n []|reflexivity].
Qed.

Lemma enumerate_lists_interfaces_witness :
  (length [ {| net_name := "eth0"; net_ip := "192.168.1.2";
               net_mac := "b827eb010203" |} ] <= 8)%nat
  /\ NoDup (map net_name
              [ {| net_name := "eth0"; net_ip := "192.168.1.2";
                   net_mac := "b827eb010203" |} ]).
Proof.
  destruct (enumerate_lists_interfaces (Some host1)
              [ {| net_name := "eth0"; net_ip := "192.168.1.2";
                   net_mac := "b827eb010203" |} ])
    as (H1 & H2 & _).
  - repeat constructor; simpl; lia.
  - vm_compute. reflexivity.
  - split; assumption.
Defined.

(** X22.  [housewiz_device_enumerate] writes past the 16 bytes of a [mac]
    field exactly when some interface that is not a loopback has a hardware
    address of 8 to 15 bytes; for every other list of interfaces it returns
    a list. *)
Theorem enumerate_overruns_iff_overlong cursor nets0 :
  enumerate_loop cursor nets0 = None <-> Exists overlong cursor.
Proof.
  revert nets0. induction cursor as [|c rest IH]; intros nets0.
  - split; [discriminate | intros H; inversion H].
  - assert (Hskip : ~ overlong c ->
              (enumerate_loop rest nets0 = None <-> Exists overlong (c :: rest))).
    { intros Hno. rewrite IH. split; [intros H; right; exact H|].
      intros H. inversion H; [contradiction | assumption]. }
    assert (Hgo : forall nets1, ~ overlong c ->
              (enumerate_loop rest nets1 = None
               <-> Exists overlong (c :: rest))).
    { intros nets1 Hno. rewrite IH. split; [intros H; right; exact H|].
      intros H. inversion H; [contradiction | assumption]. }
    cbn [enumerate_loop].
    destruct (Z.eqb_spec (Z.land (ifa_flags c) IFF_LOOPBACK) 0) as [Hlo|Hlo];
      cbn [negb]; [|apply Hskip; intros (H & _); contradiction].
    destruct (ifa_addr c) as [|s|h a|] eqn:Eaddr;
      try (apply Hskip; intros (_ & h0 & a0 & E & _);
           rewrite Eaddr in E; discriminate).
    + destruct (housewiz_device_enumerate_add (ifa_name c) nets0)
        as [idx nets1].
      apply Hgo. intros (_ & h0 & a0 & E & _).
      rewrite Eaddr in E. discriminate.
    + destruct (Z.leb_spec 16 h).
      { apply Hskip. intros (_ & h0 & a0 & E & Hh).
        rewrite Eaddr in E. inversion E; subst. lia. }
      destruct (Z.leb_spec 8 h).
      { split; [|reflexivity]. intros _. left.
        split; [exact Hlo|]. exists h, a. split; [exact Eaddr | lia]. }
      destruct (housewiz_device_enumerate_add (ifa_name c) nets0)
        as [idx nets1].
      apply Hgo. intros (_ & h0 & a0 & E & Hh).
      rewrite Eaddr in E. inversion E; subst. lia.
Qed.
